(** * utm: geodetic <-> UTM conversion on the GRS80 ellipsoid

    A shallow embedding of [src/utm/conversion.pyx].

    - C doubles are IEEE binary64 values, modelled by the Standard
      Library's [spec_float] with precision 53 and maximal exponent 1024;
      every arithmetic operation rounds to nearest, ties to even.
    - Python exceptions are an error monad over the exception class.
    - C [int] arithmetic is 32-bit two's complement arithmetic, as the
      compiled module computes it.
    - A Python string is Unicode text; a [string] stands for its UTF-8
      encoding, whose bytewise order is the order of the code points.
      [str.upper()] is computed on the ASCII characters and is an
      interface ([Unicode]) on the others.
    - The C library's [sin], [cos], [tan] and [pow] are an interface
      ([Libm]).  The one thing ever asked of it is that the squared sine
      of a latitude be a double of [0, 1], where a result says that
      [from_latlon] returns. *)

From Stdlib Require Import ZArith Lia Bool List.
From Stdlib Require Import Ascii String.
From Stdlib Require Import SpecFloat.
Import ListNotations.

Local Open Scope Z_scope.

(* ===================================================================== *)
(** ** Exceptions *)

(** The exception classes the module can raise.  [OutOfRangeError] comes
    from [utm.error]; the others are Python builtins. *)
Inductive exn : Set :=
| ValueError
| OutOfRangeError
| ZeroDivisionError
| OverflowError
| IndexError.

Inductive result (A : Type) : Type :=
| Ok (a : A)
| Raise (e : exn).
Arguments Ok {A} a.
Arguments Raise {A} e.

Definition bind {A B : Type} (c : result A) (k : A -> result B) : result B :=
  match c with
  | Ok a => k a
  | Raise e => Raise e
  end.

Declare Scope py_scope.
Delimit Scope py_scope with py.
Notation "x <- c ;; k" := (bind c (fun x => k))
  (at level 61, c at next level, right associativity) : py_scope.
Notation "c ;;; k" := (bind c (fun _ => k))
  (at level 61, right associativity) : py_scope.

(** [if cond: raise e] *)
Definition raise_if (cond : bool) (e : exn) : result unit :=
  if cond then Raise e else Ok tt.

(* ===================================================================== *)
(** ** C doubles *)

Module Double.

Definition prec : Z := 53.
Definition emax : Z := 1024.

Definition double : Set := spec_float.

(** A C double always holds a canonical binary64 value. *)
Definition is_double (x : double) : Prop := valid_binary prec emax x = true.

Definition add : double -> double -> double := SFadd prec emax.
Definition sub : double -> double -> double := SFsub prec emax.
Definition mul : double -> double -> double := SFmul prec emax.
Definition div : double -> double -> double := SFdiv prec emax.
Definition sqrt : double -> double := SFsqrt prec emax.

Definition leb : double -> double -> bool := SFleb.
Definition ltb : double -> double -> bool := SFltb.

(** Conversion of an integer to double (exact below 2^53). *)
Definition of_Z (z : Z) : double := binary_normalize prec emax z 0 false.

(** The decimal literal [n / d] written with [d] a power of ten: both
    are exact doubles, and IEEE division rounds their quotient
    correctly, as the compiler does for the literal. *)
Definition lit (n d : Z) : double := div (of_Z n) (of_Z d).

(** [x == 0] in C. *)
Definition is_zero (x : double) : bool :=
  match x with
  | S754_zero _ => true
  | _ => false
  end.

(** Division of C doubles in Cython ([cdivision] off, as in Python): a
    zero divisor raises. *)
Definition checked_div (x y : double) : result double :=
  if is_zero y then Raise ZeroDivisionError else Ok (div x y).

(** Python's [int(x)]: truncation toward zero. *)
Definition to_int (x : double) : result Z :=
  match x with
  | S754_zero _ => Ok 0
  | S754_finite s m e => Ok (cond_Zopp s (Z.shiftl (Zpos m) e))
  | S754_infinity _ => Raise OverflowError
  | S754_nan => Raise ValueError
  end.

End Double.

Import Double.

Declare Scope dbl_scope.
Delimit Scope dbl_scope with dbl.
Bind Scope dbl_scope with double.
Infix "+" := add : dbl_scope.
Infix "-" := sub : dbl_scope.
Infix "*" := mul : dbl_scope.
Infix "/" := div : dbl_scope.
Infix "<=?" := leb : dbl_scope.
Infix "<?" := ltb : dbl_scope.
Notation "# z" := (of_Z z) (at level 5, z at level 0, format "# z") : dbl_scope.

(* ===================================================================== *)
(** ** Python and C integers, Python strings *)

(** Conversion of a Python int to a C [int] (a typed parameter of a
    Cython function): out of range raises [OverflowError]. *)
Definition to_c_int (z : Z) : result Z :=
  if (- 2 ^ 31 <=? z) && (z <? 2 ^ 31) then Ok z else Raise OverflowError.

(** Two's complement wrap-around of C [int] arithmetic (32 bits). *)
Definition wrap_int (z : Z) : Z := (z + 2 ^ 31) mod 2 ^ 32 - 2 ^ 31.

(** [s[i]] on a Python string: a negative index counts from the end, an
    index out of range raises [IndexError]. *)
Definition getitem (s : string) (i : Z) : result string :=
  let n := Z.of_nat (String.length s) in
  let j := if i <? 0 then i + n else i in
  if (0 <=? j) && (j <? n) then
    match String.get (Z.to_nat j) s with
    | Some c => Ok (String c EmptyString)
    | None => Raise IndexError
    end
  else Raise IndexError.

(** [c.upper()] on an ASCII character. *)
Definition upper_ascii (c : ascii) : ascii :=
  let n := nat_of_ascii c in
  if ((97 <=? n) && (n <=? 122))%nat then ascii_of_nat (n - 32) else c.

(** A byte of an ASCII character; the bytes of every other character
    are 128 or more. *)
Definition is_ascii (c : ascii) : bool := (nat_of_ascii c <? 128)%nat.

(** The case mapping of the Unicode database for text without ASCII
    characters: [str.upper()] maps character by character, so the image
    of such a run of characters depends on the run alone.  It is taken
    as it comes (the sharp s becomes [SS], for one). *)
Class Unicode : Type := {
  upper_non_ascii : string -> string
}.

(** The image of a pending run of non-ASCII characters. *)
Definition flush {unicode : Unicode} (run : string) : string :=
  match run with
  | EmptyString => EmptyString
  | _ => upper_non_ascii run
  end.

(** [s.upper()], [run] being the non-ASCII characters read just before
    [s]. *)
Fixpoint upper_from {unicode : Unicode} (run s : string) : string :=
  match s with
  | EmptyString => flush run
  | String c s' =>
      if is_ascii c then
        flush run ++ String (upper_ascii c) (upper_from EmptyString s')
      else upper_from (run ++ String c EmptyString) s'
  end.

(** [s.upper()] *)
Definition upper {unicode : Unicode} (s : string) : string :=
  upper_from EmptyString s.

(** Truth value of an optional Python string: [None] and [''] are false. *)
Definition truthy (s : option string) : bool :=
  match s with
  | Some (String _ _) => true
  | _ => false
  end.

(* ===================================================================== *)
(** ** Zone rules *)

Definition ZONE_LETTERS : string := "CDEFGHJKLMNPQRSTUVWXX".

(** [latitude_to_zone_letter] *)
Definition latitude_to_zone_letter (latitude : double) : result (option string) :=
  if (#(-80) <=? latitude)%dbl && (latitude <=? #84)%dbl then
    (i <- to_int (latitude + #80)%dbl ;;
     c <- getitem ZONE_LETTERS (Z.shiftr i 3) ;;
     Ok (Some c))%py
  else Ok None.

(** The last line of [latlon_to_zone_number]:
    [int((longitude + 180) / 6) + 1]. *)
Definition generic_zone_number (longitude : double) : result Z :=
  (i <- to_int ((longitude + #180) / #6)%dbl ;; Ok (i + 1))%py.

(** [latlon_to_zone_number] *)
Definition latlon_to_zone_number (latitude longitude : double) : result Z :=
  if (#56 <=? latitude)%dbl && (latitude <? #64)%dbl
     && ((#3 <=? longitude)%dbl && (longitude <? #12)%dbl) then Ok 32
  else if (#72 <=? latitude)%dbl && (latitude <=? #84)%dbl
          && (#0 <=? longitude)%dbl then
    if (longitude <=? #9)%dbl then Ok 31
    else if (longitude <=? #21)%dbl then Ok 33
    else if (longitude <=? #33)%dbl then Ok 35
    else if (longitude <=? #42)%dbl then Ok 37
    else generic_zone_number longitude
  else generic_zone_number longitude.

(** [zone_number_to_central_longitude]: the parameter is a C [int], the
    arithmetic is C [int] arithmetic. *)
Definition zone_number_to_central_longitude (zone_number : Z) : result Z :=
  (z <- to_c_int zone_number ;;
   Ok (wrap_int (wrap_int (wrap_int (wrap_int (z - 1) * 6) - 180) + 3)))%py.

(* ===================================================================== *)
(** ** The C mathematical library *)

(** [from libc.math cimport sin, cos, tan, sqrt, M_PI].  The square root
    is the correctly rounded IEEE operation; the other functions are
    taken as they come.  [pow] is what Cython compiles [**] on doubles to. *)
Class Libm : Type := {
  sin : double -> double;
  cos : double -> double;
  tan : double -> double;
  pow : double -> double -> double
}.

(** The double nearest to pi: 0x400921FB54442D18. *)
Definition M_PI : double := S754_finite false 7074237752028440 (-51).

Notation "x ** k" := (pow x (of_Z k)) (at level 30, right associativity) : dbl_scope.

Section Conversion.

Context {libm : Libm} {unicode : Unicode}.

Local Open Scope dbl_scope.
Local Open Scope py_scope.

(** *** Ellipsoid constants and series coefficients *)

Definition rad2deg : double := #180 / M_PI.
Definition deg2rad : double := M_PI / #180.

Definition K0 : double := lit 9996 10000.

(* GRS80 *)
Definition R : double := lit 63781370 10.
Definition F : double := #1 / lit 298257222101 1000000000.

(* first numerical eccentricity squared *)
Definition E : double := (#2 - F) * F.
Definition E2 : double := E ** 2.
Definition E3 : double := E ** 3.
Definition E4 : double := E ** 4.
Definition E5 : double := E ** 5.
(* second numerical eccentricity squared *)
Definition E_P2 : double := E / (#1 - E).

(* third flattening n *)
Definition _E : double := F / (#2 - F).
Definition _E2 : double := _E ** 2.
Definition _E3 : double := _E ** 3.
Definition _E4 : double := _E ** 4.
Definition _E5 : double := _E ** 5.

(* meridian distance from latitude *)
Definition M1 : double :=
  #1 - E / #4 - #3 * E2 / #64 - #5 * E3 / #256 - #175 * E4 / #16384
  - #441 * E5 / #65536.
Definition M2 : double :=
  #3 / #8 * (E + E2 / #4 + #15 * E3 / #128 + #35 * E4 / #512
             + #735 * E5 / #16384).
Definition M3 : double :=
  #15 / #256 * (E2 + #3 * E3 / #4 + #35 * E4 / #64 + #105 * E5 / #256).
Definition M4 : double :=
  #35 / #3072 * (E3 + #5 * E4 / #4 + #315 * E5 / #256).
Definition M5 : double := #315 / #131072 * (E4 + #7 * E5 / #4).
Definition M6 : double := #693 / #1310720 * E5.

(* latitude from meridian distance *)
Definition P2 : double :=
  #3 / #2 * _E - #27 / #32 * _E3 + #269 / #512 * _E5.
Definition P3 : double := #21 / #16 * _E2 - #55 / #32 * _E4.
Definition P4 : double := #151 / #96 * _E3 - #417 / #128 * _E5.
Definition P5 : double := #1097 / #512 * _E4.
Definition P6 : double := #8011 / #2560 * _E5.

(** *** [to_latlon] *)

(** The argument checks of [to_latlon] (lines 90-110).  [zone_letter] is
    [None] or a string, [northern] is [None] or a bool, [zone_number]
    is a C [int].  The value is the hemisphere flag the rest of the
    function reads in [northern]. *)
Definition to_latlon_checks (easting northing : double) (zone_number : Z)
    (zone_letter : option string) (northern : option bool)
    (strict : bool) : result bool :=
  raise_if (negb (truthy zone_letter)
            && match northern with None => true | Some _ => false end)
           ValueError ;;;
  raise_if (truthy zone_letter
            && match northern with None => false | Some _ => true end)
           ValueError ;;;
  (if strict then
     raise_if (negb ((#100000 <=? easting) && (easting <? #1000000)))
              OutOfRangeError ;;;
     raise_if (negb ((#0 <=? northing) && (northing <=? #10000000)))
              OutOfRangeError
   else Ok tt) ;;;
  raise_if (negb ((1 <=? zone_number)%Z && (zone_number <=? 60)%Z))
           OutOfRangeError ;;;
  match zone_letter with
  | Some (String a s) =>
      let zone_letter := upper (String a s) in
      raise_if (negb (String.leb "C" zone_letter
                      && String.leb zone_letter "X")
                || (String.eqb zone_letter "I"
                    || String.eqb zone_letter "O"))
               OutOfRangeError ;;;
      Ok (String.leb "N" zone_letter)
  | _ => Ok match northern with Some b => b | None => false end
  end.

(** The inverse series (lines 112-166). *)
Definition to_latlon_series (easting northing : double) (zone_number : Z)
    (northern : bool) : result (double * double) :=
  let x := easting - #500000 in
  let y := if northern then northing else northing - #10000000 in
  m <- checked_div y K0 ;;
  mu <- checked_div m (R * M1) ;;
  (* meridian distance to latitude *)
  let p_rad := mu
               + P2 * sin (#2 * mu)
               + P3 * sin (#4 * mu)
               + P4 * sin (#6 * mu)
               + P5 * sin (#8 * mu)
               + P6 * sin (#10 * mu) in
  let p_sin2 := sin p_rad ** 2 in
  let p_cos := cos p_rad in
  let p_tan := tan p_rad in
  let p_tan2 := p_tan ** 2 in
  let p_tan4 := p_tan ** 4 in
  let p_tan6 := p_tan ** 6 in
  n <- checked_div R (sqrt (#1 - E * p_sin2)) ;;
  r <- checked_div (#1 - E) (#1 - E * p_sin2) ;;
  let c := _E * p_cos ** 2 in
  let c2 := c ** 2 in
  let c3 := c ** 3 in
  let c4 := c ** 4 in
  d <- checked_div x (n * K0) ;;
  q <- checked_div p_tan r ;;
  let latitude :=
    p_rad - q *
      (d ** 2 / #2
       - d ** 4 / #24 * (#5 + #3 * p_tan2 + c - #4 * c2 - #9 * p_tan2 * c)
       + d ** 6 / #720 *
           (#61 + #90 * p_tan2 + #45 * p_tan4 + #46 * c - #3 * c2
            + #100 * c3 + #88 * c4 - #252 * p_tan2 * c - #66 * p_tan2 * c2
            + #84 * p_tan4 * c3 - #192 * p_tan2 * c4 - #90 * p_tan4 * c
            + #225 * p_tan4 * c2)
       - d ** 8 / #40320 *
           (#1385 + #3633 * p_tan2 + #4095 * p_tan4 + #1575 * p_tan6)) in
  longitude <-
    checked_div
      (d
       - d ** 3 / #6 * (#1 + #2 * p_tan2 + c)
       + d ** 5 / #120 *
           (#5 + #28 * p_tan2 + #24 * p_tan4 + #6 * c - #3 * c2 - #4 * c3
            + #8 * p_tan2 * c + #4 * p_tan2 * c2 + #24 * p_tan2 * c3)
       - d ** 7 / #5040 *
           (#61 + #662 * p_tan2 + #1320 * p_tan4 + #720 * p_tan6))
      p_cos ;;
  central <- zone_number_to_central_longitude zone_number ;;
  Ok (rad2deg * latitude, rad2deg * longitude + of_Z central).

(** [zone_number] is a Python int, converted to the C [int] of the
    signature when the function is entered. *)
Definition to_latlon (easting northing : double) (zone_number : Z)
    (zone_letter : option string) (northern : option bool)
    (strict : bool) : result (double * double) :=
  zone_number <- to_c_int zone_number ;;
  northern <- to_latlon_checks easting northing zone_number zone_letter
                               northern strict ;;
  to_latlon_series easting northing zone_number northern.

(** *** [from_latlon] *)

(** The forward series (lines 203-253): easting and northing of a point
    in the zone [zone_number]. *)
Definition from_latlon_series (latitude longitude : double)
    (zone_number : Z) : result (double * double) :=
  let lon_rad := deg2rad * longitude in
  central_lon <- zone_number_to_central_longitude zone_number ;;
  let central_lon_rad := deg2rad * of_Z central_lon in
  let lat_rad := deg2rad * latitude in
  let lat_tan := tan lat_rad in
  let lat_tan2 := lat_tan ** 2 in
  let lat_tan4 := lat_tan ** 4 in
  let lat_tan6 := lat_tan ** 6 in
  n <- checked_div R (sqrt (#1 - E * sin lat_rad ** 2)) ;;
  let c := E_P2 * cos lat_rad ** 2 in
  let c2 := c ** 2 in
  let c3 := c ** 3 in
  let c4 := c ** 4 in
  let a := cos lat_rad * (lon_rad - central_lon_rad) in
  (* meridian distance from latitude *)
  let m := R * (M1 * lat_rad
                - M2 * sin (#2 * lat_rad)
                + M3 * sin (#4 * lat_rad)
                - M4 * sin (#6 * lat_rad)
                + M5 * sin (#8 * lat_rad)
                - M6 * sin (#10 * lat_rad)) in
  let easting :=
    K0 * n *
      (a
       + a ** 3 / #6 * (#1 - lat_tan2 + c)
       + a ** 5 / #120 *
           (#5 - #18 * lat_tan2 + lat_tan4 + #14 * c + #13 * c2 + #4 * c3
            - #58 * c * lat_tan2 - #64 * c2 * lat_tan2
            - #24 * lat_tan2 * c3)
       + a ** 7 / #5040 *
           (#61 - #479 * lat_tan2 + #179 * lat_tan4 - lat_tan6))
    + #500000 in
  let northing :=
    K0 * (m + n * lat_tan *
            (a ** 2 / #2
             + a ** 4 / #24 * (#5 - lat_tan2 + #9 * c + #4 * c2)
             + a ** 6 / #720 *
                 (#61 - #58 * lat_tan2 + lat_tan4 + #270 * c + #445 * c2
                  + #324 * c3 + #88 * c4 - #330 * c * lat_tan2
                  - #680 * lat_tan2 * c2 - #600 * lat_tan2 * c3
                  - #192 * lat_tan2 * c4)
             + a ** 8 / #40320 *
                 (#1385 - #3111 * lat_tan2 + #543 * lat_tan4 - lat_tan6))) in
  let northing := if latitude <? #0 then northing + #10000000 else northing in
  Ok (easting, northing).

(** [force_zone_number] is [None] or a Python int. *)
Definition from_latlon (latitude longitude : double)
    (force_zone_number : option Z) (strict : bool)
    : result (double * double * Z * option string) :=
  (if strict then
     raise_if (negb ((#(-80) <=? latitude) && (latitude <=? #84)))
              OutOfRangeError ;;;
     raise_if (negb ((#(-180) <=? longitude) && (longitude <=? #180)))
              OutOfRangeError
   else Ok tt) ;;;
  zone_number <-
    match force_zone_number with
    | None => latlon_to_zone_number latitude longitude
    | Some z => Ok z
    end ;;
  zone_letter <- latitude_to_zone_letter latitude ;;
  en <- from_latlon_series latitude longitude zone_number ;;
  Ok (fst en, snd en, zone_number, zone_letter).

End Conversion.

(* ===================================================================== *)
(** ** An executable libm *)

(** Polynomial approximations, good enough to run the conversion on
    concrete coordinates; they stand for no particular C library. *)
Module RefLibm.

Local Open Scope dbl_scope.

(** [x^n] by repeated multiplication. *)
Fixpoint powi (x : double) (n : nat) : double :=
  match n with
  | O => #1
  | S n' => x * powi x n'
  end.

Definition pow (x y : double) : double :=
  match to_int y with
  | Ok n => if (0 <=? n)%Z then powi x (Z.to_nat n) else #1 / powi x (Z.to_nat (- n))
  | Raise _ => S754_nan
  end.

(** Horner evaluation of [1 - x2/(k(k+1)) (1 - x2/((k+2)(k+3)) (...))]. *)
Fixpoint series (x2 : double) (k : Z) (terms : nat) : double :=
  match terms with
  | O => #1
  | S t => #1 - x2 / #(k * (k + 1)) * series x2 (k + 2) t
  end.

Definition sin (x : double) : double := x * series (x * x) 2 14.
Definition cos (x : double) : double := series (x * x) 1 14.
Definition tan (x : double) : double := sin x / cos x.

Definition libm : Libm := Build_Libm sin cos tan pow.

End RefLibm.

(** A stand-in for the Unicode database: the sharp s (bytes 195, 159)
    becomes [SS], other text without ASCII characters is left as it is. *)
Module RefUnicode.

Definition sharp_s : string :=
  String (ascii_of_nat 195) (String (ascii_of_nat 159) EmptyString).

Definition upper_non_ascii (s : string) : string :=
  if String.eqb s sharp_s then "SS"%string else s.

Definition unicode : Unicode := Build_Unicode upper_non_ascii.

End RefUnicode.

(* ===================================================================== *)
(** ** Definitions used to state the properties *)

(** [x div 8] for a double [x]: the floor of its exact quotient by 8.
    This is the index the specification gives for the letter band; the
    code computes [int(x) >> 3]. *)
Definition floor_div8 (x : double) : option Z :=
  match x with
  | S754_zero _ => Some 0
  | S754_finite s m e => Some (Z.shiftl (cond_Zopp s (Zpos m)) (e - 3))
  | _ => None
  end.

(** Python's [lo <= x <= hi] on doubles; false when [x] is not a number. *)
Definition between (lo hi x : double) : bool := (lo <=? x)%dbl && (x <=? hi)%dbl.

(** Python's [lo <= x < hi]. *)
Definition between_excl (lo hi x : double) : bool := (lo <=? x)%dbl && (x <? hi)%dbl.

(** The Norway band and the Svalbard band of [latlon_to_zone_number]. *)
Definition norway_band (latitude longitude : double) : bool :=
  between_excl #56 #64 latitude && between_excl #3 #12 longitude.

Definition svalbard_band (latitude longitude : double) : bool :=
  between #72 #84 latitude && (#0 <=? longitude)%dbl.

(** Whether the optional argument [northern] is given. *)
Definition supplied (northern : option bool) : bool :=
  match northern with
  | Some _ => true
  | None => false
  end.

(** Exactly one of [zone_letter] and [northern] is given; an empty
    [zone_letter] counts as not given, as in the code. *)
Definition valid_combination (zone_letter : option string)
    (northern : option bool) : bool :=
  xorb (truthy zone_letter) (supplied northern).

(** Whether the optional argument [zone_letter] is given, as an empty
    string or not. *)
Definition passed (zone_letter : option string) : bool :=
  match zone_letter with
  | Some _ => true
  | None => false
  end.

(** A string of ASCII characters. *)
Fixpoint ascii_only (s : string) : bool :=
  match s with
  | EmptyString => true
  | String c s' => is_ascii c && ascii_only s'
  end.

Definition valid_zone_number (zone_number : Z) : bool :=
  (1 <=? zone_number) && (zone_number <=? 60).

(** The uppercase form lies in [C, X] and is neither I nor O. *)
Definition valid_zone_letter {unicode : Unicode} (zone_letter : string)
    : bool :=
  let u := upper zone_letter in
  String.leb "C" u && String.leb u "X"
  && negb (String.eqb u "I") && negb (String.eqb u "O").

(** The letters of the bands C to X without I and O, in both cases. *)
Definition zone_letter_forms : list string :=
  ["C"; "D"; "E"; "F"; "G"; "H"; "J"; "K"; "L"; "M";
   "N"; "P"; "Q"; "R"; "S"; "T"; "U"; "V"; "W"; "X";
   "c"; "d"; "e"; "f"; "g"; "h"; "j"; "k"; "l"; "m";
   "n"; "p"; "q"; "r"; "s"; "t"; "u"; "v"; "w"; "x"]%string.

(** The letter argument of a call is absent (or empty), or valid. *)
Definition valid_letter_argument {unicode : Unicode}
    (zone_letter : option string) : bool :=
  match zone_letter with
  | Some (String a s) => valid_zone_letter (String a s)
  | _ => true
  end.

(** A double of [0, 1/2]: zero, or positive with an exponent in range. *)
Definition small_nonneg (x : double) : Prop :=
  match x with
  | S754_zero _ => True
  | S754_finite false m e => - 1074 <= e <= -1 /\ Zpos m <= 2 ^ (- e - 1)
  | _ => False
  end.

(** A double whose square root is not zero: not a zero itself, and with
    an exponent in range when finite. *)
Definition sqrt_safe (y : double) : Prop :=
  match y with
  | S754_zero _ => False
  | S754_finite _ _ e => - 1074 <= e
  | _ => True
  end.

(** A Python int that fits a C [int]. *)
Definition c_int_range (z : Z) : Prop := - 2 ^ 31 <= z < 2 ^ 31.

(** What is asked of libm at a latitude: the square of the sine, as
    [sin] and [pow] compute it, is a double of [0, 1]. *)
Definition sine_squared_in_unit {libm : Libm} (latitude : double) : Prop :=
  let p := (sin (deg2rad * latitude) ** 2)%dbl in
  is_double p /\ between #0 #1 p = true.

(** [to_latlon] applied to the tuple that [from_latlon] returns. *)
Definition round_trip {libm : Libm} {unicode : Unicode}
    (latitude longitude : double)
    : result (double * double) :=
  (r <- from_latlon latitude longitude None true ;;
   let '(easting, northing, zone_number, zone_letter) := r in
   to_latlon easting northing zone_number zone_letter None true)%py.

(** The divisor of line 215, [sqrt(1 - E * sin(lat_rad) ** 2)]. *)
Definition prime_vertical_divisor {libm : Libm} (latitude : double) : double :=
  sqrt (#1 - E * sin (deg2rad * latitude) ** 2)%dbl.

(** A double that is zero, or positive with an integer part of at most [B]. *)
Definition nonneg_upto (B : Z) (x : double) : Prop :=
  match x with
  | S754_zero _ => True
  | S754_finite false m e => 0 <= Z.shiftl (Zpos m) e <= B
  | _ => False
  end.


(** The twenty letters of [ZONE_LETTERS], as strings. *)
Definition band_letters : list string :=
  ["C"; "D"; "E"; "F"; "G"; "H"; "J"; "K"; "L"; "M";
   "N"; "P"; "Q"; "R"; "S"; "T"; "U"; "V"; "W"; "X"]%string.

(** An infinity or a not-a-number. *)
Definition not_finite (x : double) : bool :=
  match x with
  | S754_infinity _ | S754_nan => true
  | _ => false
  end.

(** A double that is zero or positive, with an integer part of [A, B]:
    [A <= x < B + 1] on the exact value, the exponent being in range. *)
Definition int_part_in (A B : Z) (x : double) : Prop :=
  match x with
  | S754_zero _ => A <= 0 <= B
  | S754_finite false m e =>
      - 1074 <= e <= -1
      /\ A * 2 ^ (- e) <= Zpos m < (B + 1) * 2 ^ (- e)
  | _ => False
  end.

(* ===================================================================== *)
(** ** The error monad *)

Lemma bind_Ok_inv {A B : Type} (c : result A) (k : A -> result B) (b : B) :
  bind c k = Ok b -> exists a, c = Ok a /\ k a = Ok b.
Proof.
  destruct c as [a | e]; simpl; intros H; [eauto | discriminate].
Qed.

Lemma bind_Raise_inv {A B : Type} (c : result A) (k : A -> result B) (e : exn) :
  bind c k = Raise e -> c = Raise e \/ exists a, c = Ok a /\ k a = Raise e.
Proof.
  destruct c as [a | e']; simpl; intros H; [right; eauto | left; congruence].
Qed.

Lemma raise_if_Raise_inv (cond : bool) (e e' : exn) :
  raise_if cond e = Raise e' -> cond = true /\ e' = e.
Proof.
  destruct cond; simpl; intros H; [injection H; auto | discriminate].
Qed.

Lemma checked_div_Raise_inv (x y : double) (e : exn) :
  checked_div x y = Raise e -> e = ZeroDivisionError.
Proof.
  unfold checked_div. destruct (is_zero y); intros H; [congruence | discriminate].
Qed.

Lemma to_c_int_Ok (z : Z) : - 2 ^ 31 <= z < 2 ^ 31 -> to_c_int z = Ok z.
Proof.
  intros [H1 H2]. unfold to_c_int.
  apply Z.leb_le in H1. apply Z.ltb_lt in H2. now rewrite H1, H2.
Qed.

Lemma to_c_int_Raise_inv (z : Z) (e : exn) :
  to_c_int z = Raise e -> e = OverflowError /\ ~ (- 2 ^ 31 <= z < 2 ^ 31).
Proof.
  unfold to_c_int.
  destruct (- 2 ^ 31 <=? z) eqn:H1; destruct (z <? 2 ^ 31) eqn:H2; simpl;
    intros H; try discriminate; (split; [congruence |]);
    rewrite ?Z.leb_gt, ?Z.ltb_ge in *; lia.
Qed.

(** Wrap-around depends on the value modulo 2^32 only. *)
Lemma wrap_int_shift (a k : Z) : wrap_int (a + k * 2 ^ 32) = wrap_int a.
Proof.
  unfold wrap_int.
  replace (a + k * 2 ^ 32 + 2 ^ 31) with (a + 2 ^ 31 + k * 2 ^ 32) by lia.
  rewrite Z_mod_plus_full. reflexivity.
Qed.

Lemma wrap_int_exists (a : Z) : exists k, wrap_int a = a + k * 2 ^ 32.
Proof.
  unfold wrap_int. exists (- ((a + 2 ^ 31) / 2 ^ 32)).
  pose proof (Z.div_mod (a + 2 ^ 31) (2 ^ 32) ltac:(lia)). lia.
Qed.

Lemma wrap_int_small (a : Z) : - 2 ^ 31 <= a < 2 ^ 31 -> wrap_int a = a.
Proof.
  intros H. unfold wrap_int.
  rewrite Z.mod_small by (change (2 ^ 32) with (2 ^ 31 + 2 ^ 31); lia). lia.
Qed.

Lemma wrap_int_range (a : Z) : - 2 ^ 31 <= wrap_int a < 2 ^ 31.
Proof.
  unfold wrap_int.
  pose proof (Z.mod_pos_bound (a + 2 ^ 31) (2 ^ 32) ltac:(lia)).
  change (2 ^ 32) with (2 ^ 31 + 2 ^ 31) in *. lia.
Qed.

(** The central meridian of a zone given as a C int: the four operations
    wrap as one. *)
Lemma zone_number_to_central_longitude_Ok (z : Z) :
  - 2 ^ 31 <= z < 2 ^ 31 ->
  zone_number_to_central_longitude z = Ok (wrap_int (6 * z - 183)).
Proof.
  intros H. unfold zone_number_to_central_longitude.
  rewrite (to_c_int_Ok z H). cbn [bind]. f_equal.
  destruct (wrap_int_exists (z - 1)) as [k1 E1]. rewrite E1.
  destruct (wrap_int_exists ((z - 1 + k1 * 2 ^ 32) * 6)) as [k2 E2].
  rewrite E2.
  destruct (wrap_int_exists ((z - 1 + k1 * 2 ^ 32) * 6 + k2 * 2 ^ 32 - 180))
    as [k3 E3].
  rewrite E3.
  replace ((z - 1 + k1 * 2 ^ 32) * 6 + k2 * 2 ^ 32 - 180 + k3 * 2 ^ 32 + 3)
    with (6 * z - 183 + (6 * k1 + k2 + k3) * 2 ^ 32) by lia.
  apply wrap_int_shift.
Qed.

(** Where [6 * z - 183] fits a C int, nothing wraps. *)
Lemma zone_number_to_central_longitude_exact (z : Z) :
  - 357913910 <= z <= 357913971 ->
  zone_number_to_central_longitude z = Ok (6 * z - 183).
Proof.
  intros H. rewrite zone_number_to_central_longitude_Ok by lia.
  f_equal. apply wrap_int_small. lia.
Qed.

Lemma zone_number_to_central_longitude_Raise_inv (z : Z) (e : exn) :
  zone_number_to_central_longitude z = Raise e ->
  e = OverflowError /\ ~ (- 2 ^ 31 <= z < 2 ^ 31).
Proof.
  unfold zone_number_to_central_longitude. intros H.
  apply bind_Raise_inv in H. destruct H as [H | (a & _ & H)]; [| discriminate].
  now apply to_c_int_Raise_inv.
Qed.

(* ===================================================================== *)
(** ** What the two series can raise *)

Section SeriesErrors.

Context {libm : Libm} {unicode : Unicode}.

Ltac step H :=
  apply bind_Raise_inv in H;
  destruct H as [H | (? & _ & H)];
  [ apply checked_div_Raise_inv in H; now left | ].

Lemma to_latlon_series_Raise_inv easting northing zone_number northern e :
  to_latlon_series easting northing zone_number northern = Raise e ->
  e = ZeroDivisionError \/
  (e = OverflowError /\ ~ (- 2 ^ 31 <= zone_number < 2 ^ 31)).
Proof.
  unfold to_latlon_series. intros H.
  do 7 step H.
  apply bind_Raise_inv in H. destruct H as [H | (? & _ & H)]; [| discriminate].
  right. now apply zone_number_to_central_longitude_Raise_inv.
Qed.

Lemma from_latlon_series_Raise_inv latitude longitude zone_number e :
  from_latlon_series latitude longitude zone_number = Raise e ->
  e = ZeroDivisionError \/
  (e = OverflowError /\ ~ (- 2 ^ 31 <= zone_number < 2 ^ 31)).
Proof.
  unfold from_latlon_series. intros H.
  apply bind_Raise_inv in H. destruct H as [H | (? & _ & H)].
  - right. now apply zone_number_to_central_longitude_Raise_inv.
  - step H. discriminate.
Qed.

End SeriesErrors.

(* ===================================================================== *)
(** ** Rounding to binary64 *)

(** What is needed of the rounding of [binary_normalize]: a non-negative
    dyadic number [M * 2^e] that is at most an integer [B] rounds to a
    double whose integer part is at most [B]. *)

Section Rounding.

Lemma fexp_binary64 (x : Z) : fexp prec emax x = Z.max (x - 53) (-1074).
Proof. reflexivity. Qed.

Lemma digits2_pos_bounds (m : positive) :
  2 ^ (Zpos (digits2_pos m) - 1) <= Zpos m < 2 ^ Zpos (digits2_pos m).
Proof.
  induction m as [m IH | m IH |]; simpl digits2_pos.
  - rewrite Pos2Z.inj_succ.
    replace (Z.succ (Zpos (digits2_pos m)) - 1) with (Zpos (digits2_pos m)) by lia.
    rewrite Z.pow_succ_r by lia.
    replace (Zpos (digits2_pos m)) with (Z.succ (Zpos (digits2_pos m) - 1)) at 1 by lia.
    rewrite Z.pow_succ_r by lia. lia.
  - rewrite Pos2Z.inj_succ.
    replace (Z.succ (Zpos (digits2_pos m)) - 1) with (Zpos (digits2_pos m)) by lia.
    rewrite Z.pow_succ_r by lia.
    replace (Zpos (digits2_pos m)) with (Z.succ (Zpos (digits2_pos m) - 1)) at 1 by lia.
    rewrite Z.pow_succ_r by lia. lia.
  - simpl. lia.
Qed.

(** The number of digits is determined by the enclosing powers of two. *)
Lemma digits2_pos_unique (m : positive) (d : Z) :
  2 ^ (d - 1) <= Zpos m < 2 ^ d -> Zpos (digits2_pos m) = d.
Proof.
  intros [Hlo Hhi]. pose proof (digits2_pos_bounds m) as [Glo Ghi].
  assert (0 < d).
  { destruct (Z.ltb_spec 0 d); [assumption |].
    assert (2 ^ d <= 2 ^ 0) by (apply Z.pow_le_mono_r; lia). simpl in *. lia. }
  destruct (Z.lt_trichotomy (Zpos (digits2_pos m)) d) as [L | [L | L]];
    [exfalso | assumption | exfalso].
  - assert (2 ^ Zpos (digits2_pos m) <= 2 ^ (d - 1)) by (apply Z.pow_le_mono_r; lia). lia.
  - assert (2 ^ d <= 2 ^ (Zpos (digits2_pos m) - 1)) by (apply Z.pow_le_mono_r; lia). lia.
Qed.

Lemma shr_1_m (mrs : shr_record) :
  0 <= shr_m mrs -> shr_m (shr_1 mrs) = shr_m mrs / 2.
Proof.
  destruct mrs as [m r s]. simpl shr_m. intros H.
  destruct m as [| [p | p |] |]; simpl; try lia.
  - reflexivity.
  - apply Z.div_unique with (r := 1); lia.
  - apply Z.div_unique with (r := 0); lia.
  - reflexivity.
Qed.

Lemma iter_pos_shr_1_m (p : positive) (mrs : shr_record) :
  0 <= shr_m mrs ->
  shr_m (iter_pos shr_1 p mrs) = shr_m mrs / 2 ^ Zpos p.
Proof.
  revert mrs. induction p as [p IH | p IH |]; intros mrs H; simpl iter_pos.
  - assert (H1 : 0 <= shr_m (shr_1 mrs))
      by (rewrite shr_1_m by assumption; apply Z.div_pos; lia).
    assert (H2 : 0 <= shr_m (iter_pos shr_1 p (shr_1 mrs)))
      by (rewrite IH by assumption; apply Z.div_pos; lia).
    rewrite IH, IH, shr_1_m by assumption.
    replace (Z.pos p~1) with (1 + Z.pos p + Z.pos p) by lia.
    rewrite !Z.pow_add_r, Z.pow_1_r by lia.
    rewrite !Z.div_div by lia. f_equal. lia.
  - assert (H2 : 0 <= shr_m (iter_pos shr_1 p mrs))
      by (rewrite IH by assumption; apply Z.div_pos; lia).
    rewrite IH, IH by assumption.
    replace (Z.pos p~0) with (Z.pos p + Z.pos p) by lia.
    rewrite Z.pow_add_r by lia.
    rewrite Z.div_div by lia. reflexivity.
  - rewrite shr_1_m by assumption. reflexivity.
Qed.

Lemma round_nearest_even_bounds (m : Z) (l : location) :
  m <= round_nearest_even m l <= m + 1.
Proof.
  destruct l as [| [| |]]; simpl; try lia.
  destruct (Z.even m); lia.
Qed.

Lemma iter_xO_Z (p d : positive) :
  Zpos (Pos.iter xO p d) = Zpos p * 2 ^ Zpos d.
Proof.
  induction d as [| d IH] using Pos.peano_ind.
  - simpl. lia.
  - rewrite Pos.iter_succ, Pos2Z.inj_xO, IH, Pos2Z.inj_succ, Z.pow_succ_r by lia. lia.
Qed.

Lemma digits2_pos_iter_xO (p k : positive) :
  Zpos (digits2_pos (Pos.iter xO p k)) = Zpos (digits2_pos p) + Zpos k.
Proof.
  apply digits2_pos_unique. rewrite iter_xO_Z.
  pose proof (digits2_pos_bounds p) as [Hlo Hhi].
  replace (Zpos (digits2_pos p) + Zpos k - 1)
    with (Zpos (digits2_pos p) - 1 + Zpos k) by lia.
  rewrite !Z.pow_add_r by lia.
  assert (0 < 2 ^ Zpos k) by (apply Z.pow_pos_nonneg; lia). nia.
Qed.

(** A canonical mantissa is left as it is. *)
Lemma binary_round_aux_canonical (m : positive) (e : Z) :
  fexp prec emax (Zpos (digits2_pos m) + e) = e -> e <= 971 ->
  binary_round_aux prec emax false (Zpos m) e loc_Exact = S754_finite false m e.
Proof.
  intros Hc He. unfold binary_round_aux, shr_fexp. simpl Zdigits2.
  rewrite Hc, Z.sub_diag.
  cbn [shr shr_record_of_loc shr_m loc_of_shr_record round_nearest_even Zdigits2].
  rewrite Hc, Z.sub_diag.
  cbn [shr shr_record_of_loc shr_m].
  change (emax - prec) with 971. apply Z.leb_le in He. now rewrite He.
Qed.

(** A mantissa of more than 53 digits is cut to 53 digits, and the
    result is the quotient or its successor. *)
Lemma binary_round_aux_long (p : positive) (e : Z) :
  let d := Zpos (digits2_pos p) in
  53 < d -> d + e - 53 < 971 -> - 1074 <= d + e - 53 ->
  exists m' e',
    binary_round_aux prec emax false (Zpos p) e loc_Exact = S754_finite false m' e'
    /\ d + e - 53 <= e' <= d + e - 53 + 1
    /\ Zpos p / 2 ^ (d - 53) <= Zpos m' * 2 ^ (e' - (d + e - 53))
       <= Zpos p / 2 ^ (d - 53) + 1.
Proof.
  intros d Hd Hmax Hmin.
  pose proof (digits2_pos_bounds p) as [Hlo Hhi]. fold d in Hlo, Hhi.
  set (fe := d + e - 53) in *.
  unfold binary_round_aux, shr_fexp. simpl Zdigits2. fold d.
  clearbody d.
  rewrite fexp_binary64.
  replace (Z.max (d + e - 53) (-1074) - e) with (d - 53) by (unfold fe in *; lia).
  destruct (d - 53) as [| q |] eqn:Eq; try lia.
  unfold shr. rewrite <- Eq.
  set (mrs := iter_pos shr_1 q (shr_record_of_loc (Zpos p) loc_Exact)).
  assert (Hm1 : shr_m mrs = Zpos p / 2 ^ (d - 53)).
  { unfold mrs. rewrite iter_pos_shr_1_m by (simpl; lia). rewrite Eq. reflexivity. }
  assert (Hq : 2 ^ 52 <= Zpos p / 2 ^ (d - 53) < 2 ^ 53).
  { assert (0 < 2 ^ (d - 53)) by (apply Z.pow_pos_nonneg; lia).
    assert (E1 : 2 ^ (d - 1) = 2 ^ 52 * 2 ^ (d - 53))
      by (rewrite <- Z.pow_add_r by lia; f_equal; lia).
    assert (E2 : 2 ^ d = 2 ^ 53 * 2 ^ (d - 53))
      by (rewrite <- Z.pow_add_r by lia; f_equal; lia).
    split.
    - apply Z.div_le_lower_bound; lia.
    - apply Z.div_lt_upper_bound; lia. }
  pose proof (round_nearest_even_bounds (shr_m mrs) (loc_of_shr_record mrs)) as Hr.
  set (m2 := round_nearest_even (shr_m mrs) (loc_of_shr_record mrs)) in *.
  rewrite Hm1 in Hr.
  replace (e + (d - 53)) with fe by (unfold fe; lia).
  destruct m2 as [| p2 |] eqn:Em2; try lia.
  destruct (Z.eq_dec (Zpos p2) (2 ^ 53)) as [Etop | Ntop].
  - (* the rounded mantissa carries into a 54th digit *)
    injection Etop as ->. simpl Zdigits2. rewrite fexp_binary64.
    replace (Z.max (54 + fe - 53) (-1074) - fe) with 1 by lia.
    cbn [shr shr_record_of_loc shr_m iter_pos shr_1]. change (emax - prec) with 971.
    assert (L : (fe + 1 <=? 971) = true) by (apply Z.leb_le; lia). rewrite L.
    eexists _, _. split; [reflexivity |]. split; [lia |].
    replace (fe + 1 - fe) with 1 by lia.
    change (Zpos 4503599627370496 * 2 ^ 1) with (2 ^ 53). lia.
  - assert (D2 : Zpos (digits2_pos p2) = 53) by (apply digits2_pos_unique; simpl Z.sub; lia).
    simpl Zdigits2. rewrite D2, fexp_binary64.
    replace (Z.max (53 + fe - 53) (-1074) - fe) with 0 by lia.
    cbn [shr shr_record_of_loc shr_m]. change (emax - prec) with 971.
    assert (L : (fe <=? 971) = true) by (apply Z.leb_le; lia). rewrite L.
    eexists _, _. split; [reflexivity |]. split; [lia |].
    rewrite Z.sub_diag, Z.mul_1_r. lia.
Qed.

Lemma shiftl_upper (m e B : Z) :
  0 <= m -> e <= 0 -> m < (B + 1) * 2 ^ (- e) -> 0 <= Z.shiftl m e <= B.
Proof.
  intros Hm He Hb.
  rewrite Z.shiftl_div_pow2 by lia.
  assert (0 < 2 ^ (- e)) by (apply Z.pow_pos_nonneg; lia).
  split.
  - apply Z.div_pos; lia.
  - apply Z.lt_succ_r. apply Z.div_lt_upper_bound; lia.
Qed.

(** Rounding a dyadic number of [0, B] gives a double of [0, B + 1). *)
Lemma binary_normalize_nonneg_upto (M e B : Z) :
  0 <= M -> - 1074 <= e <= 0 -> 0 <= B < 2 ^ 52 -> M <= B * 2 ^ (- e) ->
  nonneg_upto B (binary_normalize prec emax M e false).
Proof.
  intros HM He HB Hle.
  destruct M as [| p |]; [exact I | | lia].
  assert (P0 : 0 < 2 ^ (- e)) by (apply Z.pow_pos_nonneg; lia).
  pose proof (digits2_pos_bounds p) as [Hlo Hhi].
  simpl binary_normalize. unfold binary_round.
  set (d := Zpos (digits2_pos p)) in *.
  rewrite fexp_binary64. unfold shl_align.
  destruct (Z.max (d + e - 53) (-1074) - e) as [| k | k] eqn:Ek.
  - (* the mantissa is canonical *)
    rewrite binary_round_aux_canonical
      by (try rewrite fexp_binary64; fold d; lia).
    apply shiftl_upper; lia.
  - (* more than 53 digits: the mantissa is cut *)
    assert (Hd : 53 < d) by lia.
    assert (Hfe : d + e - 53 < 0).
    { assert (Zpos p < 2 ^ 52 * 2 ^ (- e)) by nia.
      rewrite <- Z.pow_add_r in H by lia.
      destruct (Z.lt_ge_cases (d - 1) (52 + - e)) as [L | L]; [lia |].
      apply (Z.pow_le_mono_r 2) in L; lia. }
    destruct (binary_round_aux_long p e) as (m' & e' & -> & He' & Hm');
      fold d; try lia.
    fold d in He', Hm'.
    apply shiftl_upper; try lia.
    set (fe := d + e - 53) in *.
    assert (Q0 : 0 < 2 ^ (d - 53)) by (apply Z.pow_pos_nonneg; lia).
    assert (R0 : 0 < 2 ^ (e' - fe)) by (apply Z.pow_pos_nonneg; lia).
    assert (S0 : 0 < 2 ^ (- e')) by (apply Z.pow_pos_nonneg; lia).
    assert (F0 : 2 <= 2 ^ (- fe)) by (apply (Z.pow_le_mono_r 2 1); lia).
    assert (E1 : 2 ^ (- e) = 2 ^ (- fe) * 2 ^ (d - 53))
      by (rewrite <- Z.pow_add_r by lia; f_equal; unfold fe; lia).
    assert (E2 : 2 ^ (- fe) = 2 ^ (- e') * 2 ^ (e' - fe))
      by (rewrite <- Z.pow_add_r by lia; f_equal; lia).
    assert (Hq : Zpos p / 2 ^ (d - 53) <= B * 2 ^ (- fe)).
    { apply Z.lt_succ_r. apply Z.div_lt_upper_bound; [lia |]. nia. }
    assert (Zpos m' * 2 ^ (e' - fe) < (B + 1) * 2 ^ (- e') * 2 ^ (e' - fe)) by nia.
    apply (Z.mul_lt_mono_pos_r (2 ^ (e' - fe))); assumption.
  - (* fewer digits than the exponent allows: the mantissa is aligned *)
    rewrite binary_round_aux_canonical.
    + apply shiftl_upper; try lia.
      rewrite iter_xO_Z.
      set (fe := Z.max (d + e - 53) (-1074)) in *.
      assert (E1 : 2 ^ (- fe) = 2 ^ (- e) * 2 ^ Zpos k)
        by (rewrite <- Z.pow_add_r by lia; f_equal; lia).
      assert (0 < 2 ^ Zpos k) by (apply Z.pow_pos_nonneg; lia).
      rewrite E1. nia.
    + rewrite digits2_pos_iter_xO. fold d. rewrite !fexp_binary64.
      replace (d + Zpos k + Z.max (d + e - 53) (-1074)) with (d + e) by lia.
      reflexivity.
    + lia.
Qed.

(** On such a double, [int(x) >> 3] is the floor of [x / 8]. *)
Lemma nonneg_upto_to_int (B : Z) (x : double) :
  nonneg_upto B x ->
  exists k, to_int x = Ok k /\ 0 <= k <= Z.max 0 B
            /\ floor_div8 x = Some (Z.shiftr k 3).
Proof.
  destruct x as [s | s | | [|] m e]; simpl; try contradiction.
  - intros _. exists 0. repeat split; lia.
  - intros H. exists (Z.shiftl (Zpos m) e). split; [reflexivity |].
    split; [lia |]. f_equal.
    destruct (Z.le_ge_cases 0 e) as [Le | Le].
    + destruct (Z.le_ge_cases 3 e) as [L3 | L3].
      * rewrite Z.shiftr_shiftl_l by lia. reflexivity.
      * rewrite Z.shiftr_shiftl_r by lia.
        rewrite <- Z.shiftl_opp_r. f_equal. lia.
    + rewrite <- (Z.opp_involutive e) at 2. rewrite Z.shiftl_opp_r.
      rewrite Z.shiftr_shiftr by lia.
      rewrite <- Z.shiftl_opp_r. f_equal. lia.
Qed.

(** *** The two stages of [binary_round_aux] *)

Lemma shr_record_of_loc_m (m : Z) (l : location) :
  shr_m (shr_record_of_loc m l) = m.
Proof. destruct l as [| [| |]]; reflexivity. Qed.

Lemma loc_of_shr_record_of_loc (m : Z) (l : location) :
  loc_of_shr_record (shr_record_of_loc m l) = l.
Proof. destruct l as [| [| |]]; reflexivity. Qed.

(** [shr_fexp] moves the exponent up to [fexp] and divides the mantissa
    accordingly. *)
Lemma shr_fexp_cases (m e : Z) (l : location) :
  0 <= m ->
  let e' := Z.max e (fexp prec emax (Zdigits2 m + e)) in
  exists mrs,
    shr_fexp prec emax m e l = (mrs, e')
    /\ shr_m mrs = m / 2 ^ (e' - e)
    /\ (e' = e -> loc_of_shr_record mrs = l).
Proof.
  intros Hm e'. unfold shr_fexp, shr.
  destruct (fexp prec emax (Zdigits2 m + e) - e) as [| n | n] eqn:En.
  - exists (shr_record_of_loc m l).
    replace e' with e by (unfold e'; lia).
    rewrite Z.sub_diag, Z.div_1_r, shr_record_of_loc_m.
    auto using loc_of_shr_record_of_loc.
  - exists (iter_pos shr_1 n (shr_record_of_loc m l)).
    replace e' with (e + Zpos n) by (unfold e'; lia).
    rewrite iter_pos_shr_1_m by (rewrite shr_record_of_loc_m; exact Hm).
    rewrite shr_record_of_loc_m.
    replace (e + Zpos n - e) with (Zpos n) by lia.
    repeat split. intros; lia.
  - exists (shr_record_of_loc m l).
    replace e' with e by (unfold e'; lia).
    rewrite Z.sub_diag, Z.div_1_r, shr_record_of_loc_m.
    auto using loc_of_shr_record_of_loc.
Qed.

(** The result of [binary_round_aux] on a positive mantissa, in terms of
    the mantissa [m2] after the first shift and rounding, and the
    mantissa [m3] after the second shift. *)
Lemma binary_round_aux_stages (s : bool) (p : positive) (e : Z) (l : location) :
  exists m2 m3,
    let e1 := Z.max e (fexp prec emax (Zpos (digits2_pos p) + e)) in
    let e2 := Z.max e1 (fexp prec emax (Zdigits2 m2 + e1)) in
    Zpos p / 2 ^ (e1 - e) <= m2 <= Zpos p / 2 ^ (e1 - e) + 1
    /\ m3 = m2 / 2 ^ (e2 - e1)
    /\ binary_round_aux prec emax s (Zpos p) e l
       = match m3 with
         | Z0 => S754_zero s
         | Zpos m => if e2 <=? 971 then S754_finite s m e2 else S754_infinity s
         | Zneg _ => S754_nan
         end.
Proof.
  unfold binary_round_aux.
  destruct (shr_fexp_cases (Zpos p) e l) as (mrs1 & -> & Hm1 & _); [lia |].
  simpl Zdigits2.
  set (e1 := Z.max e (fexp prec emax (Zpos (digits2_pos p) + e))).
  set (m2 := round_nearest_even (shr_m mrs1) (loc_of_shr_record mrs1)).
  pose proof (round_nearest_even_bounds (shr_m mrs1) (loc_of_shr_record mrs1))
    as Hr. fold m2 in Hr. rewrite Hm1 in Hr. fold e1 in Hr.
  assert (H2 : 0 <= m2).
  { apply Z.le_trans with (2 := proj1 Hr). apply Z.div_pos; [lia |].
    apply Z.pow_pos_nonneg; unfold e1; lia. }
  destruct (shr_fexp_cases m2 e1 loc_Exact H2) as (mrs2 & -> & Hm2 & _).
  exists m2, (shr_m mrs2). cbv zeta.
  split; [exact Hr |]. split; [exact Hm2 |]. reflexivity.
Qed.

(** With an exponent in range, a shift keeps a positive mantissa positive. *)
Lemma shift_positive (m : positive) (e : Z) :
  - 1074 <= e ->
  let e' := Z.max e (fexp prec emax (Zpos (digits2_pos m) + e)) in
  1 <= Zpos m / 2 ^ (e' - e).
Proof.
  intros He e'. pose proof (digits2_pos_bounds m) as [Hlo _].
  unfold e'. rewrite fexp_binary64.
  set (d := Zpos (digits2_pos m)) in *.
  destruct (Z.le_gt_cases (d + e - 53) e) as [L | G].
  - replace (Z.max e (Z.max (d + e - 53) (-1074)) - e) with 0 by lia.
    rewrite Z.div_1_r. lia.
  - replace (Z.max e (Z.max (d + e - 53) (-1074)) - e) with (d - 53) by lia.
    assert (0 < 2 ^ (d - 53)) by (apply Z.pow_pos_nonneg; lia).
    assert (E1 : 2 ^ (d - 1) = 2 ^ 52 * 2 ^ (d - 53))
      by (rewrite <- Z.pow_add_r by lia; f_equal; lia).
    apply Z.div_le_lower_bound; [lia |].
    assert (1 <= 2 ^ 52) by (simpl; lia). nia.
Qed.

(** Rounding a positive mantissa with an exponent in range never gives
    a zero, nor a finite double with an exponent out of range. *)
Lemma binary_round_aux_safe (s : bool) (p : positive) (e : Z) (l : location) :
  - 1074 <= e -> sqrt_safe (binary_round_aux prec emax s (Zpos p) e l).
Proof.
  intros He.
  destruct (binary_round_aux_stages s p e l) as (m2 & m3 & H2 & H3 & ->).
  cbv zeta in *.
  pose proof (shift_positive p e He) as Hp. cbv zeta in Hp.
  set (e1 := Z.max e (fexp prec emax (Zpos (digits2_pos p) + e))) in *.
  destruct m2 as [| p2 |]; try lia.
  assert (He1 : - 1074 <= e1) by (unfold e1; lia).
  pose proof (shift_positive p2 e1 He1) as Hp2. cbv zeta in Hp2.
  simpl Zdigits2 in *.
  set (e2 := Z.max e1 (fexp prec emax (Zpos (digits2_pos p2) + e1))) in *.
  destruct m3 as [| p3 |]; try lia.
  destruct (e2 <=? 971); simpl; [unfold e2; lia | exact I].
Qed.

Lemma digits2_pos_upper (m : positive) (k : Z) :
  Zpos m < 2 ^ k -> Zpos (digits2_pos m) <= k.
Proof.
  intros H. pose proof (digits2_pos_bounds m) as [Hlo _].
  destruct (Z.le_gt_cases (Zpos (digits2_pos m)) k) as [L | G]; [exact L |].
  assert (2 ^ k <= 2 ^ (Zpos (digits2_pos m) - 1))
    by (apply Z.pow_le_mono_r; lia).
  lia.
Qed.

(** Rounding a mantissa that stands for a number below 1/2 gives a
    double of [0, 1/2]. *)
Lemma binary_round_aux_small (p : positive) (e : Z) (l : location) :
  Zpos (digits2_pos p) + e <= -1 ->
  small_nonneg (binary_round_aux prec emax false (Zpos p) e l).
Proof.
  intros Hd.
  destruct (binary_round_aux_stages false p e l) as (m2 & m3 & H2 & H3 & ->).
  cbv zeta in *.
  pose proof (digits2_pos_bounds p) as [_ Hhi].
  rewrite fexp_binary64 in *.
  set (d := Zpos (digits2_pos p)) in *.
  set (e1 := Z.max e (Z.max (d + e - 53) (-1074))) in *.
  assert (He1 : - 1074 <= e1 <= -1) by (unfold e1; lia).
  assert (Hm2 : 0 <= m2 <= 2 ^ (- e1 - 1)).
  { assert (0 < 2 ^ (e1 - e)) by (apply Z.pow_pos_nonneg; unfold e1; lia).
    assert (0 <= Zpos p / 2 ^ (e1 - e)) by (apply Z.div_pos; lia).
    assert (Zpos p / 2 ^ (e1 - e) < 2 ^ (- e1 - 1)); [| lia].
    apply Z.div_lt_upper_bound; [lia |].
    rewrite <- Z.pow_add_r by (unfold e1; lia).
    apply Z.lt_le_trans with (1 := Hhi).
    apply Z.pow_le_mono_r; lia. }
  set (e2 := Z.max e1 (fexp prec emax (Zdigits2 m2 + e1))) in *.
  assert (He2 : e1 <= e2 <= -1).
  { unfold e2. rewrite fexp_binary64. split; [lia |].
    destruct m2 as [| p2 |]; simpl Zdigits2; try lia.
    pose proof (digits2_pos_bounds p2) as [Hlo2 _].
    assert (Zpos (digits2_pos p2) - 1 <= - e1 - 1); [| lia].
    destruct (Z.le_gt_cases (Zpos (digits2_pos p2) - 1) (- e1 - 1)) as [L | G];
      [exact L |].
    assert (2 ^ (- e1 - 1 + 1) <= 2 ^ (Zpos (digits2_pos p2) - 1))
      by (apply Z.pow_le_mono_r; lia).
    rewrite Z.pow_add_r, Z.pow_1_r in H by lia.
    assert (0 < 2 ^ (- e1 - 1)) by (apply Z.pow_pos_nonneg; lia). lia. }
  assert (Hm3 : 0 <= m3 <= 2 ^ (- e2 - 1)).
  { assert (0 < 2 ^ (e2 - e1)) by (apply Z.pow_pos_nonneg; lia).
    rewrite H3. split; [apply Z.div_pos; lia |].
    apply Z.div_le_upper_bound; [lia |].
    rewrite <- Z.pow_add_r by lia.
    replace (e2 - e1 + (- e2 - 1)) with (- e1 - 1) by lia. lia. }
  destruct m3 as [| p3 |]; [exact I | | lia].
  assert (L : (e2 <=? 971) = true) by (apply Z.leb_le; lia).
  rewrite L. simpl. lia.
Qed.

Lemma shl_align_fst (m : positive) (e e' : Z) :
  e' <= e -> Zpos (fst (shl_align m e e')) = Zpos m * 2 ^ (e - e').
Proof.
  intros H. unfold shl_align.
  destruct (e' - e) as [| k | k] eqn:Ek; cbn [fst]; try lia.
  - replace (e - e') with 0 by lia. lia.
  - rewrite iter_xO_Z. f_equal. f_equal. lia.
Qed.

Lemma shl_align_snd (m : positive) (e e' : Z) :
  snd (shl_align m e e') = Z.min e e'.
Proof.
  unfold shl_align.
  destruct (e' - e) as [| k | k] eqn:Ek; cbn [snd]; lia.
Qed.

(** The same for the exact result of an addition or a subtraction. *)
Lemma binary_normalize_safe (M e : Z) :
  0 < M -> - 1074 <= e -> sqrt_safe (binary_normalize prec emax M e false).
Proof.
  intros HM He. destruct M as [| p |]; try lia.
  simpl binary_normalize. unfold binary_round.
  pose proof (shl_align_snd p e (fexp prec emax (Zpos (digits2_pos p) + e))) as Hs.
  destruct (shl_align p e (fexp prec emax (Zpos (digits2_pos p) + e)))
    as [mz ez]. cbn [snd] in Hs.
  apply binary_round_aux_safe. rewrite fexp_binary64 in Hs. lia.
Qed.

End Rounding.

(* ===================================================================== *)
(** ** The latitude bands *)

Lemma of_Z_80 : of_Z 80 = S754_finite false 5629499534213120 (-46).
Proof. reflexivity. Qed.

Lemma of_Z_neg80 : of_Z (-80) = S754_finite true 5629499534213120 (-46).
Proof. reflexivity. Qed.

Lemma of_Z_84 : of_Z 84 = S754_finite false 5910974510923776 (-46).
Proof. reflexivity. Qed.

Lemma is_double_finite (s : bool) (m : positive) (e : Z) :
  is_double (S754_finite s m e) ->
  Zpos m < 2 ^ 53 /\ - 1074 <= e <= 971.
Proof.
  unfold is_double, valid_binary, bounded, canonical_mantissa.
  rewrite fexp_binary64. change (emax - prec) with 971.
  intros H. apply andb_prop in H. destruct H as [H1 H2].
  apply Z.eqb_eq in H1. apply Z.leb_le in H2.
  pose proof (digits2_pos_bounds m) as [_ Hhi].
  split; [| lia].
  apply Z.lt_le_trans with (1 := Hhi). apply Z.pow_le_mono_r; lia.
Qed.

Lemma leb_finite_pos (m1 m2 : positive) (e1 e2 : Z) :
  (S754_finite false m1 e1 <=? S754_finite false m2 e2)%dbl = true ->
  e1 < e2 \/ (e1 = e2 /\ Zpos m1 <= Zpos m2).
Proof.
  unfold leb, SFleb, SFcompare.
  destruct (Z.compare_spec e1 e2) as [E | L | G]; intros H;
    [right | left; exact L | discriminate H].
  split; [exact E |].
  fold (Pos.compare m1 m2) in H.
  destruct (Pos.compare_spec m1 m2) as [E' | L' | G'].
  - rewrite E'. apply Z.le_refl.
  - apply Z.lt_le_incl. apply Pos2Z.pos_lt_pos. exact L'.
  - discriminate H.
Qed.

Lemma leb_finite_neg (m1 m2 : positive) (e1 e2 : Z) :
  (S754_finite true m1 e1 <=? S754_finite true m2 e2)%dbl = true ->
  e2 < e1 \/ (e1 = e2 /\ Zpos m2 <= Zpos m1).
Proof.
  unfold leb, SFleb, SFcompare.
  destruct (Z.compare_spec e1 e2) as [E | L | G]; intros H;
    [right | discriminate H | left; exact G].
  split; [exact E |].
  fold (Pos.compare m1 m2) in H.
  destruct (Pos.compare_spec m1 m2) as [E' | L' | G'].
  - rewrite E'. apply Z.le_refl.
  - discriminate H.
  - apply Z.lt_le_incl. apply Pos2Z.pos_lt_pos. exact G'.
Qed.

(** A double of the band [-80, 84], seen as [+/- m * 2^e]. *)
Lemma in_band_finite (s : bool) (m : positive) (e : Z) :
  (#(-80) <=? S754_finite s m e)%dbl && (S754_finite s m e <=? #84)%dbl = true ->
  e < -46 \/ (e = -46 /\ Zpos m <= if s then 5629499534213120 else 5910974510923776).
Proof.
  rewrite of_Z_neg80, of_Z_84.
  intros H. apply andb_prop in H. destruct H as [H1 H2].
  destruct s.
  - apply leb_finite_neg in H1. clear H2.
    destruct H1 as [L | [E H]]; [left; exact L | right].
    split; [symmetry; exact E | exact H].
  - apply leb_finite_pos in H2. clear H1. exact H2.
Qed.

(** [latitude + 80] on the band: the sum is a double of [0, 165). *)
Lemma add_80_in_band (latitude : double) :
  is_double latitude ->
  (#(-80) <=? latitude)%dbl && (latitude <=? #84)%dbl = true ->
  nonneg_upto 164 (latitude + #80)%dbl.
Proof.
  intros Hv Hb. destruct latitude as [s | s | | s m e].
  - clear. simpl. lia.
  - destruct s; discriminate.
  - discriminate.
  - apply is_double_finite in Hv. destruct Hv as [Hm He].
    apply in_band_finite in Hb.
    rewrite of_Z_80. unfold add, SFadd.
    rewrite Z.min_l by lia.
    unfold shl_align at 1. rewrite Z.sub_diag. cbn [fst].
    assert (A : Zpos (fst (shl_align 5629499534213120 (-46) e)) = 80 * 2 ^ (- e)).
    { unfold shl_align. destruct (e - -46) as [| k | k] eqn:Ek; cbn [fst]; try lia.
      - replace e with (-46) by lia. reflexivity.
      - rewrite iter_xO_Z. replace (- e) with (46 + Zpos k) by lia.
        rewrite Z.pow_add_r by lia. change (2 ^ 46) with 70368744177664. lia. }
    rewrite A. cbn [cond_Zopp].
    assert (P : 2 ^ 46 <= 2 ^ (- e)) by (apply Z.pow_le_mono_r; lia).
    assert (Q : Zpos m <= (if s then 80 else 84) * 2 ^ (- e)).
    { destruct Hb as [L | [-> Hle]].
      - assert (2 ^ 47 <= 2 ^ (- e)) by (apply Z.pow_le_mono_r; lia).
        change (2 ^ 47) with 140737488355328 in *.
        change (2 ^ 53) with 9007199254740992 in *. destruct s; lia.
      - change (2 ^ (- -46)) with 70368744177664. destruct s; lia. }
    apply binary_normalize_nonneg_upto; try lia;
      destruct s; cbn [cond_Zopp]; lia.
Qed.

Lemma get_in_range (s : string) (n : nat) :
  (n < String.length s)%nat -> exists c, String.get n s = Some c.
Proof.
  revert n. induction s as [| a s IH]; intros n H; simpl in H; [lia |].
  destruct n as [| n]; simpl; [eauto |]. apply IH. lia.
Qed.

Lemma getitem_in_range (s : string) (i : Z) :
  0 <= i < Z.of_nat (String.length s) ->
  exists c, String.get (Z.to_nat i) s = Some c
            /\ getitem s i = Ok (String c EmptyString).
Proof.
  intros H. unfold getitem.
  destruct (Z.ltb_spec i 0) as [L | _]; [lia |].
  destruct (Z.leb_spec 0 i) as [_ | L]; [| lia].
  destruct (Z.ltb_spec i (Z.of_nat (String.length s))) as [_ | L]; [| lia].
  destruct (get_in_range s (Z.to_nat i)) as [c Hc]; [lia |].
  exists c. rewrite Hc. auto.
Qed.

(** On the band the letter is the one at index [(latitude + 80) div 8]. *)
Lemma latitude_to_zone_letter_in_band (latitude : double) :
  is_double latitude -> between #(-80) #84 latitude = true ->
  exists i c,
    floor_div8 (latitude + #80)%dbl = Some i /\ 0 <= i <= 20
    /\ String.get (Z.to_nat i) ZONE_LETTERS = Some c
    /\ latitude_to_zone_letter latitude = Ok (Some (String c EmptyString)).
Proof.
  intros Hv Hb. unfold between in Hb.
  destruct (nonneg_upto_to_int _ _ (add_80_in_band latitude Hv Hb))
    as (k & Hk & Hr & Hf).
  assert (Hi : 0 <= Z.shiftr k 3 <= 20).
  { rewrite Z.shiftr_div_pow2 by lia. change (2 ^ 3) with 8.
    split; [apply Z.div_pos; lia |].
    apply Z.lt_succ_r. apply Z.div_lt_upper_bound; lia. }
  destruct (getitem_in_range ZONE_LETTERS (Z.shiftr k 3)) as (c & Hc & Hg).
  { change (Z.of_nat (String.length ZONE_LETTERS)) with 21. lia. }
  exists (Z.shiftr k 3), c. repeat split; try assumption; try lia.
  unfold latitude_to_zone_letter. rewrite Hb, Hk. simpl bind. rewrite Hg.
  reflexivity.
Qed.

(** C8.  [latitude_to_zone_letter]: for every double [latitude] with
    [-80 <= latitude <= 84] the result is the character of
    ["CDEFGHJKLMNPQRSTUVWXX"] at index [(latitude + 80) div 8], an index of
    [0, 20]; for every other [latitude] (not a number included) the
    result is [None].  At 84.0 the letter is X, at 85.0 there is none. *)
Theorem latitude_to_zone_letter_band :
  (forall latitude : double,
      is_double latitude -> between #(-80) #84 latitude = true ->
      exists i c,
        floor_div8 (latitude + #80)%dbl = Some i /\ 0 <= i <= 20
        /\ String.get (Z.to_nat i) ZONE_LETTERS = Some c
        /\ latitude_to_zone_letter latitude = Ok (Some (String c EmptyString)))
  /\ (forall latitude : double,
         between #(-80) #84 latitude = false ->
         latitude_to_zone_letter latitude = Ok None)
  /\ latitude_to_zone_letter #84 = Ok (Some "X"%string)
  /\ latitude_to_zone_letter #85 = Ok None.
Proof.
  split; [| split; [| split; reflexivity]].
  - exact latitude_to_zone_letter_in_band.
  - intros latitude Hb. unfold between in Hb.
    unfold latitude_to_zone_letter. rewrite Hb. reflexivity.
Qed.

(** The sum is the rounded one: just below the equator, at -2^-67,
    [latitude + 80] is 80.0 and the letter is that of the band above. *)
Lemma latitude_to_zone_letter_below_equator :
  let latitude := S754_finite true 4503599627370496 (-119) in
  is_double latitude
  /\ (latitude + #80)%dbl = of_Z 80
  /\ latitude_to_zone_letter latitude = Ok (Some "N"%string).
Proof. repeat split; reflexivity. Qed.

Lemma latitude_to_zone_letter_band_witness :
  exists i c,
    floor_div8 (#(-72) + #80)%dbl = Some i /\ 0 <= i <= 20
    /\ String.get (Z.to_nat i) ZONE_LETTERS = Some c
    /\ latitude_to_zone_letter #(-72) = Ok (Some (String c EmptyString)).
Proof.
  apply (proj1 latitude_to_zone_letter_band (of_Z (-72))); reflexivity.
Defined.

(* ===================================================================== *)
(** ** The division of [from_latlon] *)

(** [R / sqrt(1 - E * p)] with [p] the squared sine: for [p] in [0, 1]
    the product [E * p] stays below 1/2, the difference is positive, and
    so is its square root. *)

Lemma E_value : E = S754_finite false 7718094688412794 (-60).
Proof. vm_compute. reflexivity. Qed.

Lemma of_Z_1 : of_Z 1 = S754_finite false 4503599627370496 (-52).
Proof. reflexivity. Qed.

Lemma mul_E_small (p : double) :
  is_double p -> between #0 #1 p = true -> small_nonneg (E * p)%dbl.
Proof.
  intros Hv Hb. rewrite E_value. unfold between in Hb.
  apply andb_prop in Hb. destruct Hb as [H0 H1].
  destruct p as [s | s | | s m e]; try discriminate H1; try discriminate H0.
  - exact I.
  - destruct s; [discriminate H0 | discriminate H1].
  - destruct s; [discriminate H0 |]. clear H0.
    rewrite of_Z_1 in H1. apply leb_finite_pos in H1.
    apply is_double_finite in Hv. destruct Hv as [Hm He].
    unfold mul, SFmul. cbn [xorb].
    apply binary_round_aux_small.
    assert (He' : e <= -52) by (destruct H1 as [L | [-> _]]; lia).
    assert (Hp : Zpos (7718094688412794 * m) < 2 ^ 106).
    { rewrite Pos2Z.inj_mul.
      assert (Zpos 7718094688412794 < 2 ^ 53) by reflexivity.
      change (2 ^ 106) with (2 ^ 53 * 2 ^ 53).
      assert (0 < 2 ^ 53) by reflexivity. nia. }
    apply digits2_pos_upper in Hp. lia.
Qed.

Lemma sub_1_safe (q : double) : small_nonneg q -> sqrt_safe (#1 - q)%dbl.
Proof.
  rewrite of_Z_1.
  destruct q as [s | s | | [|] m e]; simpl small_nonneg; try contradiction.
  - intros _. simpl. lia.
  - intros [He Hm]. unfold sub, SFsub. cbn [cond_Zopp].
    rewrite !shl_align_fst by lia.
    apply binary_normalize_safe; [| lia].
    set (ez := Z.min (-52) e).
    assert (E1 : Zpos 4503599627370496 * 2 ^ (-52 - ez) = 2 ^ (- ez)).
    { change (Zpos 4503599627370496) with (2 ^ 52).
      rewrite <- Z.pow_add_r by (unfold ez; lia). f_equal. lia. }
    assert (E2 : 2 ^ (- ez) = 2 * (2 ^ (- e - 1) * 2 ^ (e - ez))).
    { rewrite <- Z.pow_add_r by (unfold ez; lia).
      rewrite <- Z.pow_succ_r by (unfold ez; lia). f_equal. lia. }
    assert (0 < 2 ^ (e - ez)) by (apply Z.pow_pos_nonneg; unfold ez; lia).
    assert (0 < 2 ^ (- e - 1)) by (apply Z.pow_pos_nonneg; lia).
    rewrite E1, E2. nia.
Qed.

Lemma sqrt_safe_nonzero (y : double) : sqrt_safe y -> is_zero y = false.
Proof. destruct y; simpl; [contradiction | reflexivity ..]. Qed.

Lemma sqrt_nonzero (y : double) : sqrt_safe y -> is_zero (sqrt y) = false.
Proof.
  destruct y as [s | [|] | | [|] m e]; simpl sqrt_safe;
    try contradiction; try reflexivity.
  intros He. apply sqrt_safe_nonzero.
  unfold sqrt, SFsqrt, SFsqrt_core_binary. simpl Zdigits2.
  rewrite fexp_binary64.
  set (d := Zpos (digits2_pos m)).
  set (e' := Z.min (Z.max (Z.div2 (d + e + 1) - 53) (-1074)) (Z.div2 e)).
  assert (He' : - 1074 <= e' /\ 2 * e' <= e).
  { unfold e'. rewrite (Z.div2_div e).
    pose proof (Z.mul_div_le e 2 ltac:(lia)).
    assert (- 537 <= e / 2) by (apply Z.div_le_lower_bound; lia).
    lia. }
  set (m' := match e - 2 * e' with
             | Z0 => Zpos m
             | Zpos _ => Z.shiftl (Zpos m) (e - 2 * e')
             | Zneg _ => 0
             end).
  assert (Hm' : 1 <= m').
  { unfold m'. destruct (e - 2 * e') as [| k | k] eqn:Ek; try lia.
    rewrite Z.shiftl_mul_pow2 by lia.
    assert (0 < 2 ^ Zpos k) by (apply Z.pow_pos_nonneg; lia). nia. }
  pose proof (Z.sqrtrem_spec m' ltac:(lia)) as Hs.
  destruct (Z.sqrtrem m') as [q r].
  destruct q as [| q |]; try nia.
  apply binary_round_aux_safe. lia.
Qed.

Section Divisor.

Context {libm : Libm} {unicode : Unicode}.

(** With a squared sine in [0, 1], line 215 does not divide by zero. *)
Lemma prime_vertical_divisor_nonzero (latitude : double) :
  sine_squared_in_unit latitude ->
  is_zero (prime_vertical_divisor latitude) = false.
Proof.
  intros [Hv Hb]. unfold prime_vertical_divisor.
  apply sqrt_nonzero, sub_1_safe, mul_E_small; assumption.
Qed.

End Divisor.

(* ===================================================================== *)
(** ** The argument checks of [to_latlon] *)

Section ToLatlonChecks.

Context {libm : Libm} {unicode : Unicode}.

Local Open Scope py_scope.

(** With neither or both of [zone_letter] and [northern], the first
    two tests raise. *)
Lemma to_latlon_checks_invalid easting northing zone_number zone_letter
    northern strict :
  valid_combination zone_letter northern = false ->
  to_latlon_checks easting northing zone_number zone_letter northern strict
  = Raise ValueError.
Proof.
  unfold valid_combination, to_latlon_checks.
  destruct zone_letter as [[| a s] |], northern as [b |];
    cbn [truthy supplied xorb]; intros H; try discriminate H; reflexivity.
Qed.

(** With exactly one of them, the checks are the range checks. *)
Lemma to_latlon_checks_valid easting northing zone_number zone_letter
    northern strict :
  valid_combination zone_letter northern = true ->
  to_latlon_checks easting northing zone_number zone_letter northern strict
  = ((if strict then
        raise_if (negb (between_excl #100000 #1000000 easting))
                 OutOfRangeError ;;;
        raise_if (negb (between #0 #10000000 northing)) OutOfRangeError
      else Ok tt) ;;;
     raise_if (negb (valid_zone_number zone_number)) OutOfRangeError ;;;
     match zone_letter with
     | Some (String a s) =>
         raise_if (negb (valid_zone_letter (String a s))) OutOfRangeError ;;;
         Ok (String.leb "N" (upper (String a s)))
     | _ => Ok match northern with Some b => b | None => false end
     end).
Proof.
  unfold valid_combination, to_latlon_checks.
  destruct zone_letter as [[| a s] |], northern as [b |];
    cbn [truthy supplied xorb]; intros H; try discriminate H;
    cbn [negb andb raise_if bind]; try reflexivity.
  assert (Eb : negb (valid_zone_letter (String a s))
               = negb (String.leb "C" (upper (String a s))
                       && String.leb (upper (String a s)) "X")
                 || (String.eqb (upper (String a s)) "I"
                     || String.eqb (upper (String a s)) "O")).
  { unfold valid_zone_letter. cbv zeta.
    destruct (String.leb "C" (upper (String a s))),
             (String.leb (upper (String a s)) "X"),
             (String.eqb (upper (String a s)) "I"),
             (String.eqb (upper (String a s)) "O"); reflexivity. }
  rewrite Eb. reflexivity.
Qed.

(** The checks raise nothing but the two validation errors. *)
Lemma to_latlon_checks_Raise_inv easting northing zone_number zone_letter
    northern strict e :
  to_latlon_checks easting northing zone_number zone_letter northern strict
  = Raise e ->
  (e = ValueError /\ valid_combination zone_letter northern = false)
  \/ (e = OutOfRangeError /\ valid_combination zone_letter northern = true).
Proof.
  destruct (valid_combination zone_letter northern) eqn:Hc.
  - rewrite to_latlon_checks_valid by assumption. intros H. right.
    split; [| reflexivity].
    destruct strict,
      (between_excl #100000 #1000000 easting), (between #0 #10000000 northing),
      (valid_zone_number zone_number), zone_letter as [[| a s] |];
      cbn [negb raise_if bind] in H; try congruence;
      destruct (valid_zone_letter (String a s));
      cbn [negb raise_if bind] in H; congruence.
  - rewrite to_latlon_checks_invalid by assumption. intros H. left.
    split; congruence.
Qed.

(** A zone number that fits a C int enters the function as it is. *)
Lemma to_latlon_c_int easting northing zone_number zone_letter northern
    strict :
  c_int_range zone_number ->
  to_latlon easting northing zone_number zone_letter northern strict
  = (northern <- to_latlon_checks easting northing zone_number zone_letter
                                  northern strict ;;
     to_latlon_series easting northing zone_number northern).
Proof.
  intros H. unfold to_latlon. rewrite (to_c_int_Ok _ H). reflexivity.
Qed.

(** Any other zone number stops the call before the first check. *)
Lemma to_latlon_overflow easting northing zone_number zone_letter northern
    strict :
  ~ c_int_range zone_number ->
  to_latlon easting northing zone_number zone_letter northern strict
  = Raise OverflowError.
Proof.
  intros H. unfold to_latlon, to_c_int.
  destruct (Z.leb_spec (- 2 ^ 31) zone_number) as [L | L];
    destruct (Z.ltb_spec zone_number (2 ^ 31)) as [U | U];
    cbn [andb bind]; try reflexivity.
  exfalso. apply H. split; assumption.
Qed.

Lemma c_int_range_dec (z : Z) : c_int_range z \/ ~ c_int_range z.
Proof. unfold c_int_range. lia. Qed.

Lemma valid_zone_number_c_int (z : Z) :
  valid_zone_number z = true -> c_int_range z.
Proof.
  unfold valid_zone_number, c_int_range. intros H.
  apply andb_prop in H. destruct H as [H1 H2].
  apply Z.leb_le in H1. apply Z.leb_le in H2.
  change (2 ^ 31) with 2147483648. lia.
Qed.

(** The whole function raises [ValueError] only from the first two
    tests, and [OverflowError] only on entry. *)
Lemma to_latlon_Raise_inv easting northing zone_number zone_letter
    northern strict e :
  to_latlon easting northing zone_number zone_letter northern strict
  = Raise e ->
  (e = OverflowError /\ ~ c_int_range zone_number)
  \/ (c_int_range zone_number
      /\ (to_latlon_checks easting northing zone_number zone_letter northern
                           strict
          = Raise e
          \/ e = ZeroDivisionError)).
Proof.
  destruct (c_int_range_dec zone_number) as [Hz | Hz].
  - rewrite to_latlon_c_int by exact Hz. intros H. right.
    split; [exact Hz |].
    apply bind_Raise_inv in H.
    destruct H as [H | (b & _ & H)]; [left; exact H | right].
    apply to_latlon_series_Raise_inv in H.
    destruct H as [H | [_ H]]; [exact H | contradiction].
  - rewrite to_latlon_overflow by exact Hz. intros H. left.
    split; [congruence | exact Hz].
Qed.

End ToLatlonChecks.

Lemma ltb_finite_pos (m1 m2 : positive) (e1 e2 : Z) :
  e1 < e2 \/ (e1 = e2 /\ Zpos m1 < Zpos m2) ->
  (S754_finite false m1 e1 <? S754_finite false m2 e2)%dbl = true.
Proof.
  unfold ltb, SFltb, SFcompare. intros [L | [-> H]].
  - apply Z.compare_lt_iff in L. rewrite L. reflexivity.
  - rewrite Z.compare_refl. fold (Pos.compare m1 m2).
    assert (C : Pos.compare m1 m2 = Lt) by (apply Pos.compare_lt_iff; exact H).
    rewrite C. reflexivity.
Qed.

(** An easting of at most 999999 is below 1000000. *)
Lemma leb_999999_ltb_1000000 (x : double) :
  (x <=? #999999)%dbl = true -> (x <? #1000000)%dbl = true.
Proof.
  change (of_Z 999999) with (S754_finite false 8589926002065408 (-33)).
  change (of_Z 1000000) with (S754_finite false 8589934592000000 (-33)).
  destruct x as [s | [|] | | [|] m e]; try reflexivity; try discriminate.
  intros H. apply leb_finite_pos in H. apply ltb_finite_pos.
  destruct H as [L | [E H]]; [left; exact L | right].
  split; [exact E |].
  apply Z.le_lt_trans with (1 := H). reflexivity.
Qed.

(* ===================================================================== *)
(** ** Properties of [to_latlon] *)

Section ToLatlon.

Context {libm : Libm} {unicode : Unicode}.

Local Open Scope py_scope.

(** C6, as amended.  [to_latlon] raises [ValueError], an error other
    than [OutOfRangeError], exactly when [zone_number] fits a C int and
    both or neither of a non-empty [zone_letter] and [northern] are
    supplied, an empty [zone_letter] counting as not supplied; with
    exactly one of them it never does. *)
Theorem to_latlon_argument_combination easting northing zone_number
    zone_letter northern strict :
  ValueError <> OutOfRangeError
  /\ (to_latlon easting northing zone_number zone_letter northern strict
      = Raise ValueError
      <-> c_int_range zone_number
          /\ valid_combination zone_letter northern = false).
Proof.
  split; [discriminate |]. split.
  - intros H. apply to_latlon_Raise_inv in H.
    destruct H as [[H _] | [Hz [H | H]]]; try discriminate H.
    split; [exact Hz |].
    apply to_latlon_checks_Raise_inv in H.
    destruct H as [[_ H] | [H _]]; [exact H | discriminate H].
  - intros [Hz H]. rewrite to_latlon_c_int by exact Hz.
    rewrite to_latlon_checks_invalid by assumption. reflexivity.
Qed.

(** C7, as amended.  In a call with a [zone_number] that fits a C int
    and exactly one of a non-empty [zone_letter] and [northern], a
    [zone_number] outside [1, 60] raises [OutOfRangeError] whatever
    [strict] is, and so does a [zone_letter] whose uppercase form is
    outside [C, X] or is I or O. *)
Theorem to_latlon_zone_checks_ignore_strict easting northing zone_number
    zone_letter northern strict :
  c_int_range zone_number ->
  valid_combination zone_letter northern = true ->
  (valid_zone_number zone_number = false ->
   to_latlon easting northing zone_number zone_letter northern strict
   = Raise OutOfRangeError)
  /\ (valid_letter_argument zone_letter = false ->
      to_latlon easting northing zone_number zone_letter northern strict
      = Raise OutOfRangeError).
Proof.
  intros Hz Hc. rewrite to_latlon_c_int by exact Hz.
  rewrite to_latlon_checks_valid by assumption.
  split.
  - intros ->.
    destruct strict,
      (between_excl #100000 #1000000 easting), (between #0 #10000000 northing);
      reflexivity.
  - intros Hl. destruct zone_letter as [[| a s] |]; try discriminate Hl.
    cbn [valid_letter_argument] in Hl. rewrite Hl.
    destruct strict,
      (between_excl #100000 #1000000 easting), (between #0 #10000000 northing),
      (valid_zone_number zone_number);
      reflexivity.
Qed.

(** C4, as amended.  In a call whose argument combination, zone number
    and zone letter are valid, [to_latlon] with [strict] raises
    [OutOfRangeError] exactly when [easting] is outside
    [100000, 1000000) or [northing] is outside [0, 10000000]; an
    [easting] of [100000, 1000000), in particular of [100000, 999999],
    with a [northing] of [0, 10000000] passes the checks: the call
    behaves as without [strict]. *)
Theorem to_latlon_strict_range easting northing zone_number zone_letter
    northern :
  valid_combination zone_letter northern = true ->
  valid_zone_number zone_number = true ->
  valid_letter_argument zone_letter = true ->
  (to_latlon easting northing zone_number zone_letter northern true
   = Raise OutOfRangeError
   <-> between_excl #100000 #1000000 easting = false
       \/ between #0 #10000000 northing = false)
  /\ (between_excl #100000 #1000000 easting = true ->
      between #0 #10000000 northing = true ->
      to_latlon easting northing zone_number zone_letter northern true
      = to_latlon easting northing zone_number zone_letter northern false)
  /\ (between #100000 #999999 easting = true ->
      between #0 #10000000 northing = true ->
      to_latlon easting northing zone_number zone_letter northern true
      = to_latlon easting northing zone_number zone_letter northern false).
Proof.
  intros Hc Hz Hl.
  pose proof (valid_zone_number_c_int _ Hz) as Hi.
  assert (Hpass : between_excl #100000 #1000000 easting = true ->
                  between #0 #10000000 northing = true ->
                  to_latlon easting northing zone_number zone_letter northern true
                  = to_latlon easting northing zone_number zone_letter northern false).
  { intros He Hn. rewrite !to_latlon_c_int by exact Hi.
    rewrite !to_latlon_checks_valid by assumption.
    rewrite He, Hn. reflexivity. }
  split; [| split; [exact Hpass |]].
  - split.
    + intros H. apply to_latlon_Raise_inv in H.
      destruct H as [[H _] | [_ [H | H]]]; try discriminate H.
      rewrite to_latlon_checks_valid in H by assumption.
      rewrite Hz in H.
      destruct (between_excl #100000 #1000000 easting); [| now left].
      destruct (between #0 #10000000 northing); [| now right].
      exfalso. cbn [negb raise_if bind] in H.
      destruct zone_letter as [[| a s] |]; try discriminate H.
      cbn [valid_letter_argument] in Hl. rewrite Hl in H. discriminate H.
    + intros H. rewrite to_latlon_c_int by exact Hi.
      rewrite to_latlon_checks_valid by assumption.
      destruct H as [H | H]; rewrite H;
        [| destruct (between_excl #100000 #1000000 easting)]; reflexivity.
  - intros He Hn. apply Hpass; [| exact Hn].
    unfold between, between_excl in *.
    apply andb_prop in He. destruct He as [He1 He2].
    rewrite He1. cbn [andb]. now apply leb_999999_ltb_1000000.
Qed.

(** A valid letter stands for its hemisphere. *)
Lemma to_latlon_letter_hemisphere easting northing zone_number a s strict :
  valid_zone_letter (String a s) = true ->
  to_latlon easting northing zone_number (Some (String a s)) None strict
  = to_latlon easting northing zone_number None
      (Some (String.leb "N" (upper (String a s)))) strict.
Proof.
  intros Hl. unfold to_latlon.
  destruct (to_c_int zone_number) as [z | e]; cbn [bind]; [| reflexivity].
  rewrite !to_latlon_checks_valid by reflexivity.
  rewrite Hl. reflexivity.
Qed.

(** C9.  For every valid zone letter [L], in upper or lower case,
    [to_latlon] with [zone_letter = L] returns what it returns with
    [northern = (L.upper() >= 'N')] instead, for all other arguments. *)
Theorem to_latlon_letter_is_hemisphere easting northing zone_number L strict :
  In L zone_letter_forms ->
  to_latlon easting northing zone_number (Some L) None strict
  = to_latlon easting northing zone_number None
      (Some (String.leb "N" (upper L))) strict.
Proof.
  intros H. unfold zone_letter_forms in H.
  repeat (destruct H as [<- | H];
          [apply to_latlon_letter_hemisphere; reflexivity |]).
  contradiction.
Qed.

End ToLatlon.

Section ToLatlonExamples.

Local Open Scope dbl_scope.

Local Existing Instance RefUnicode.unicode.

Lemma to_latlon_zone_checks_ignore_strict_witness :
  c_int_range 0
  /\ valid_combination None (Some true) = true
  /\ (valid_zone_number 0 = false ->
      to_latlon (libm := RefLibm.libm) #500000 #5000000 0 None (Some true) false
      = Raise OutOfRangeError)
  /\ c_int_range 32
  /\ valid_combination (Some "i"%string) None = true
  /\ (valid_letter_argument (Some "i"%string) = false ->
      to_latlon (libm := RefLibm.libm) #500000 #5000000 32 (Some "i"%string)
        None false
      = Raise OutOfRangeError).
Proof.
  assert (H0 : c_int_range 0) by (unfold c_int_range; simpl; lia).
  assert (H32 : c_int_range 32) by (unfold c_int_range; simpl; lia).
  split; [exact H0 |]. split; [reflexivity |]. split.
  - apply (to_latlon_zone_checks_ignore_strict (libm := RefLibm.libm)
             #500000 #5000000 0 None (Some true) false H0).
    reflexivity.
  - split; [exact H32 |]. split; [reflexivity |].
    apply (to_latlon_zone_checks_ignore_strict (libm := RefLibm.libm)
             #500000 #5000000 32 (Some "i"%string) None false H32).
    reflexivity.
Defined.

(** C6 as stated fails: an empty [zone_letter] is supplied and counts
    for nothing; alone it raises [ValueError], and together with
    [northern] it raises none. *)
Lemma to_latlon_empty_zone_letter :
  ~ (forall (libm : Libm) (unicode : Unicode) easting northing zone_number
            zone_letter northern strict,
        c_int_range zone_number ->
        (to_latlon easting northing zone_number zone_letter northern strict
         = Raise ValueError
         <-> xorb (passed zone_letter) (supplied northern) = false)).
Proof.
  intros H.
  assert (H32 : c_int_range 32) by (unfold c_int_range; simpl; lia).
  destruct (H RefLibm.libm RefUnicode.unicode #500000 #5000000 32
              (Some EmptyString) None false H32) as [H1 _].
  assert (E : to_latlon (libm := RefLibm.libm) #500000 #5000000 32
                (Some EmptyString) None false = Raise ValueError).
  { rewrite to_latlon_c_int by exact H32.
    rewrite to_latlon_checks_invalid by reflexivity. reflexivity. }
  specialize (H1 E). discriminate H1.
Qed.

(** C7 as stated fails: with neither [zone_letter] nor [northern], a zone
    number outside [1, 60] raises [ValueError], not [OutOfRangeError]. *)
Lemma to_latlon_zone_number_value_error :
  ~ (forall (libm : Libm) (unicode : Unicode) easting northing zone_number
            zone_letter northern strict,
        valid_zone_number zone_number = false ->
        to_latlon easting northing zone_number zone_letter northern strict
        = Raise OutOfRangeError).
Proof.
  intros H.
  specialize (H RefLibm.libm RefUnicode.unicode
                #500000 #5000000 0 None None false eq_refl).
  rewrite to_latlon_c_int in H by (unfold c_int_range; simpl; lia).
  rewrite to_latlon_checks_invalid in H by reflexivity.
  discriminate H.
Qed.

Lemma to_latlon_strict_range_witness :
  valid_combination (Some "U"%string) None = true
  /\ valid_zone_number 32 = true
  /\ valid_letter_argument (Some "U"%string) = true
  /\ (between #100000 #999999 #294409 = true ->
      between #0 #10000000 #5628898 = true ->
      to_latlon (libm := RefLibm.libm) #294409 #5628898 32 (Some "U"%string)
        None true
      = to_latlon (libm := RefLibm.libm) #294409 #5628898 32
          (Some "U"%string) None false).
Proof.
  repeat (split; [reflexivity |]).
  apply (to_latlon_strict_range (libm := RefLibm.libm)
           #294409 #5628898 32 (Some "U"%string) None);
    reflexivity.
Defined.

(** C4 as stated fails: the easting 999999.5 is outside [100000, 999999]
    and passes the strict check, which is [100000 <= easting < 1000000]. *)
Lemma to_latlon_easting_above_999999 :
  ~ (forall (libm : Libm) (unicode : Unicode) easting northing zone_number
            zone_letter northern,
        valid_combination zone_letter northern = true ->
        valid_zone_number zone_number = true ->
        valid_letter_argument zone_letter = true ->
        (to_latlon easting northing zone_number zone_letter northern true
         = Raise OutOfRangeError
         <-> between #100000 #999999 easting = false
             \/ between #0 #10000000 northing = false)).
Proof.
  intros H.
  destruct (H RefLibm.libm RefUnicode.unicode (lit 9999995 10) #0 32 None
              (Some true) eq_refl eq_refl eq_refl) as [_ H2].
  specialize (H2 (or_introl eq_refl)).
  apply to_latlon_Raise_inv in H2.
  destruct H2 as [[H2 _] | [_ [H2 | H2]]]; discriminate H2.
Qed.

Lemma to_latlon_letter_is_hemisphere_witness :
  In "u"%string zone_letter_forms
  /\ to_latlon (libm := RefLibm.libm) #294409 #5628898 32 (Some "u"%string)
       None true
     = to_latlon (libm := RefLibm.libm) #294409 #5628898 32 None
         (Some (String.leb "N" (upper "u"))) true.
Proof.
  assert (H : In "u"%string zone_letter_forms).
  { unfold zone_letter_forms. do 36 right. left. reflexivity. }
  split; [exact H |].
  exact (to_latlon_letter_is_hemisphere (libm := RefLibm.libm)
           #294409 #5628898 32 "u"%string true H).
Defined.

End ToLatlonExamples.

(* ===================================================================== *)
(** ** Properties of the zone rules *)

Section ZoneNumberExamples.

Local Open Scope dbl_scope.

Local Existing Instance RefUnicode.unicode.

(** C2, at the input where the code departs from it: the longitude 180
    passes the strict check of [from_latlon] and gets the zone number 61,
    a zone number that [to_latlon] refuses. *)
Theorem latlon_to_zone_number_at_180 :
  between #(-80) #84 #0 = true
  /\ between #(-180) #180 #180 = true
  /\ latlon_to_zone_number #0 #180 = Ok 61
  /\ (forall (libm : Libm) (unicode : Unicode) easting northing northern
             strict,
         to_latlon easting northing 61 None (Some northern) strict
         = Raise OutOfRangeError).
Proof.
  repeat (split; [reflexivity |]).
  intros libm unicode easting northing northern strict.
  rewrite to_latlon_c_int by (unfold c_int_range; simpl; lia).
  rewrite to_latlon_checks_valid by reflexivity.
  destruct strict,
    (between_excl #100000 #1000000 easting), (between #0 #10000000 northing);
    reflexivity.
Qed.

(** The largest double below 180, 179.99999999999997, is in zone 61 as
    well: [longitude + 180] rounds to 360. *)
Lemma latlon_to_zone_number_below_180 :
  latlon_to_zone_number #0 (S754_finite false 6333186975989759 (-45)) = Ok 61.
Proof. reflexivity. Qed.

(** C3 as stated fails: the zone number of (10.0, 10.0) is not 41. *)
Lemma latlon_to_zone_number_10_10_not_41 :
  latlon_to_zone_number #10 #10 <> Ok 41.
Proof. discriminate. Qed.

(** C3, as amended.  [latlon_to_zone_number(10.0, 10.0)] is in neither
    special band and returns the result of the generic formula, 32. *)
Theorem latlon_to_zone_number_10_10 :
  norway_band #10 #10 = false
  /\ svalbard_band #10 #10 = false
  /\ latlon_to_zone_number #10 #10 = generic_zone_number #10
  /\ generic_zone_number #10 = Ok 32.
Proof. repeat split; reflexivity. Qed.

End ZoneNumberExamples.

(* ===================================================================== *)
(** ** Properties of [from_latlon] *)

Section FromLatlon.

Context {libm : Libm} {unicode : Unicode}.

Local Open Scope py_scope.

(** With [strict], a coordinate outside the domain is refused. *)
Lemma from_latlon_strict_out_of_range latitude longitude force_zone_number :
  between #(-80) #84 latitude = false
  \/ between #(-180) #180 longitude = false ->
  from_latlon latitude longitude force_zone_number true
  = Raise OutOfRangeError.
Proof.
  unfold between, from_latlon. intros [H | H]; rewrite H; [reflexivity |].
  destruct ((#(-80) <=? latitude)%dbl && (latitude <=? #84)%dbl); reflexivity.
Qed.

(** In the domain, [strict] changes nothing. *)
Lemma from_latlon_strict_in_range latitude longitude force_zone_number :
  between #(-80) #84 latitude = true ->
  between #(-180) #180 longitude = true ->
  from_latlon latitude longitude force_zone_number true
  = from_latlon latitude longitude force_zone_number false.
Proof.
  unfold between, from_latlon. intros -> ->. reflexivity.
Qed.

(** The forward series returns, for a zone number that fits a C int and
    a libm whose squared sine is in [0, 1]. *)
Lemma from_latlon_series_Ok latitude longitude zone_number :
  c_int_range zone_number ->
  sine_squared_in_unit latitude ->
  exists easting northing,
    from_latlon_series latitude longitude zone_number
    = Ok (easting, northing).
Proof.
  intros Hz Hd. apply prime_vertical_divisor_nonzero in Hd.
  unfold from_latlon_series.
  rewrite zone_number_to_central_longitude_Ok by exact Hz.
  cbn [bind]. unfold checked_div.
  fold (prime_vertical_divisor latitude). rewrite Hd.
  eexists _, _. reflexivity.
Qed.

Lemma zone_number_85_0 : latlon_to_zone_number #85 #0 = Ok 31.
Proof. vm_compute. reflexivity. Qed.

Lemma zone_letter_85 : latitude_to_zone_letter #85 = Ok None.
Proof. vm_compute. reflexivity. Qed.

(** C5.  With [strict], every latitude outside [-80, 84] and every
    longitude outside [-180, 180] raises [OutOfRangeError], so
    [from_latlon(85.0, 0.0, strict=True)] does; without [strict],
    [from_latlon(85.0, 0.0)] raises nothing and returns an easting and
    a northing in zone 31, without a letter, for every libm whose
    squared sine is in [0, 1] there; it raises no [OutOfRangeError]
    with any libm. *)
Theorem from_latlon_domain_validation :
  (forall latitude longitude force_zone_number,
      between #(-80) #84 latitude = false
      \/ between #(-180) #180 longitude = false ->
      from_latlon latitude longitude force_zone_number true
      = Raise OutOfRangeError)
  /\ from_latlon #85 #0 None true = Raise OutOfRangeError
  /\ (sine_squared_in_unit #85 ->
      exists easting northing,
        from_latlon #85 #0 None false = Ok (easting, northing, 31, None))
  /\ from_latlon #85 #0 None false <> Raise OutOfRangeError.
Proof.
  split; [exact from_latlon_strict_out_of_range |].
  split; [| split].
  - apply from_latlon_strict_out_of_range. left. reflexivity.
  - intros Hd. unfold from_latlon. cbn [bind].
    rewrite zone_number_85_0, zone_letter_85. cbn [bind].
    destruct (from_latlon_series_Ok #85 #0 31) as (easting & northing & ->);
      [unfold c_int_range; simpl; lia | exact Hd |].
    exists easting, northing. reflexivity.
  - unfold from_latlon. cbn [bind].
    rewrite zone_number_85_0, zone_letter_85. cbn [bind].
    destruct (from_latlon_series #85 #0 31) as [en | e] eqn:Hs;
      cbn [bind]; [discriminate |].
    apply from_latlon_series_Raise_inv in Hs.
    destruct Hs as [-> | [-> _]]; discriminate.
Qed.

(** C10, as amended.  [from_latlon] does not check the range of
    [force_zone_number]: for a coordinate of the strict domain and every
    Python int [Z] that fits a C int, also outside [1, 60],
    [from_latlon(latitude, longitude, force_zone_number=Z, strict=True)]
    raises nothing and returns [Z] as zone number, for every libm whose
    squared sine is in [0, 1] at this latitude. *)
Theorem from_latlon_force_zone_number latitude longitude Z :
  is_double latitude ->
  between #(-80) #84 latitude = true ->
  between #(-180) #180 longitude = true ->
  c_int_range Z ->
  sine_squared_in_unit latitude ->
  exists easting northing zone_letter,
    from_latlon latitude longitude (Some Z) true
    = Ok (easting, northing, Z, zone_letter).
Proof.
  intros Hv Hlat Hlon Hz Hd.
  destruct (latitude_to_zone_letter_in_band latitude Hv Hlat)
    as (i & c & _ & _ & _ & Hl).
  destruct (from_latlon_series_Ok latitude longitude Z Hz Hd)
    as (easting & northing & Hs).
  exists easting, northing, (Some (String c EmptyString)).
  rewrite from_latlon_strict_in_range by assumption.
  unfold from_latlon. cbn [bind]. rewrite Hl. cbn [bind].
  rewrite Hs. reflexivity.
Qed.

Lemma zone_number_0_180 : latlon_to_zone_number #0 #180 = Ok 61.
Proof. vm_compute. reflexivity. Qed.

Lemma zone_letter_0 : latitude_to_zone_letter #0 = Ok (Some "N"%string).
Proof. vm_compute. reflexivity. Qed.

(** C1, at an input where the code departs from it.  The coordinate
    (0.0, 180.0) is in the strict domain; [from_latlon] puts it in zone
    61 and [to_latlon] refuses what [from_latlon] returned: the round
    trip raises [OutOfRangeError] instead of recovering the coordinate
    (or [ZeroDivisionError], should libm make line 215 divide by zero). *)
Theorem round_trip_at_longitude_180 :
  between #(-80) #84 #0 = true
  /\ between #(-180) #180 #180 = true
  /\ (round_trip #0 #180 = Raise OutOfRangeError
      \/ round_trip #0 #180 = Raise ZeroDivisionError).
Proof.
  split; [reflexivity |]. split; [reflexivity |].
  unfold round_trip.
  rewrite from_latlon_strict_in_range by reflexivity.
  unfold from_latlon. cbn [bind].
  rewrite zone_number_0_180, zone_letter_0. cbn [bind].
  destruct (from_latlon_series #0 #180 61) as [[easting northing] | e] eqn:Hs;
    cbn [bind fst snd].
  - left. rewrite to_latlon_c_int by (unfold c_int_range; simpl; lia).
    rewrite to_latlon_checks_valid by reflexivity.
    destruct (between_excl #100000 #1000000 easting),
             (between #0 #10000000 northing); reflexivity.
  - right. apply from_latlon_series_Raise_inv in Hs.
    destruct Hs as [-> | [_ Hs]]; [reflexivity |].
    exfalso. apply Hs. simpl. lia.
Qed.

End FromLatlon.

Section FromLatlonExamples.

Local Open Scope dbl_scope.

Local Existing Instance RefUnicode.unicode.

Lemma from_latlon_domain_validation_witness :
  sine_squared_in_unit (libm := RefLibm.libm) #85
  /\ exists easting northing,
       from_latlon (libm := RefLibm.libm) #85 #0 None false
       = Ok (easting, northing, 31, None).
Proof.
  assert (H : sine_squared_in_unit (libm := RefLibm.libm) #85)
    by (vm_compute; split; reflexivity).
  split; [exact H |].
  exact (proj1 (proj2 (proj2 (from_latlon_domain_validation
                               (libm := RefLibm.libm)))) H).
Defined.

Lemma from_latlon_force_zone_number_witness :
  is_double (lit 5077535 100000)
  /\ between #(-80) #84 (lit 5077535 100000) = true
  /\ between #(-180) #180 (lit 608389 100000) = true
  /\ c_int_range 99
  /\ sine_squared_in_unit (libm := RefLibm.libm) (lit 5077535 100000)
  /\ exists easting northing zone_letter,
       from_latlon (libm := RefLibm.libm) (lit 5077535 100000)
         (lit 608389 100000) (Some 99%Z) true
       = Ok (easting, northing, 99%Z, zone_letter).
Proof.
  assert (H1 : is_double (lit 5077535 100000)) by (vm_compute; reflexivity).
  assert (H2 : between #(-80) #84 (lit 5077535 100000) = true)
    by (vm_compute; reflexivity).
  assert (H3 : between #(-180) #180 (lit 608389 100000) = true)
    by (vm_compute; reflexivity).
  assert (H4 : c_int_range 99) by (unfold c_int_range; simpl; lia).
  assert (H5 : sine_squared_in_unit (libm := RefLibm.libm) (lit 5077535 100000))
    by (vm_compute; split; reflexivity).
  repeat (split; [assumption |]).
  exact (from_latlon_force_zone_number (libm := RefLibm.libm)
           (lit 5077535 100000) (lit 608389 100000) 99%Z H1 H2 H3 H4 H5).
Defined.

(** C10 as stated fails: a Python int that does not fit a C int, such as
    2^31, raises [OverflowError] when it is passed to
    [zone_number_to_central_longitude]. *)
Lemma from_latlon_force_zone_number_overflow :
  ~ (forall (libm : Libm) latitude longitude Z,
        is_double latitude ->
        between #(-80) #84 latitude = true ->
        between #(-180) #180 longitude = true ->
        sine_squared_in_unit latitude ->
        exists easting northing zone_letter,
          from_latlon latitude longitude (Some Z) true
          = Ok (easting, northing, Z, zone_letter)).
Proof.
  intros H.
  assert (Hd : sine_squared_in_unit (libm := RefLibm.libm) #0)
    by (vm_compute; split; reflexivity).
  destruct (H RefLibm.libm #0 #0 (2 ^ 31)%Z eq_refl eq_refl eq_refl Hd)
    as (easting & northing & zone_letter & H').
  vm_compute in H'. discriminate H'.
Qed.

End FromLatlonExamples.

(* ===================================================================== *)
(** ** More on the zone rules *)

(** X1.  [zone_number_to_central_longitude] computes in C int
    arithmetic: for a zone number [z] that fits a C int it returns
    [6 * z - 183] wrapped to 32 bits, which is [6 * z - 183] itself
    exactly when [-357913910 <= z <= 357913971], so for every zone
    number of [1, 60]; for every other Python int it raises
    [OverflowError]. *)
Theorem zone_number_to_central_longitude_total (z : Z) :
  zone_number_to_central_longitude z
  = (if (- 2 ^ 31 <=? z) && (z <? 2 ^ 31) then Ok (wrap_int (6 * z - 183))
     else Raise OverflowError)
  /\ (wrap_int (6 * z - 183) = 6 * z - 183
      <-> - 357913910 <= z <= 357913971).
Proof.
  split.
  - destruct (Z.leb_spec (- 2 ^ 31) z) as [L | L];
      destruct (Z.ltb_spec z (2 ^ 31)) as [U | U]; cbn [andb].
    + apply zone_number_to_central_longitude_Ok. split; assumption.
    + unfold zone_number_to_central_longitude, to_c_int.
      apply Z.leb_le in L. apply Z.ltb_ge in U. now rewrite L, U.
    + unfold zone_number_to_central_longitude, to_c_int.
      apply Z.leb_gt in L. now rewrite L.
    + unfold zone_number_to_central_longitude, to_c_int.
      apply Z.leb_gt in L. now rewrite L.
  - split.
    + intros H. pose proof (wrap_int_range (6 * z - 183)) as R.
      rewrite H in R. change (2 ^ 31) with 2147483648 in R. lia.
    + intros H. apply wrap_int_small. change (2 ^ 31) with 2147483648. lia.
Qed.

(** Outside the two special bands the zone number is the generic one. *)
Lemma latlon_to_zone_number_generic (latitude longitude : double) :
  norway_band latitude longitude = false ->
  svalbard_band latitude longitude = false ->
  latlon_to_zone_number latitude longitude = generic_zone_number longitude.
Proof.
  unfold norway_band, svalbard_band, between, between_excl,
    latlon_to_zone_number.
  intros -> ->. reflexivity.
Qed.

Lemma generic_zone_number_central (z : Z) :
  1 <= z <= 60 -> generic_zone_number (of_Z (6 * z - 183)) = Ok z.
Proof.
  intros H.
  assert (C : z = 1 \/ z = 2 \/ z = 3 \/ z = 4 \/ z = 5 \/ z = 6 \/ z = 7
              \/ z = 8 \/ z = 9 \/ z = 10 \/ z = 11 \/ z = 12 \/ z = 13
              \/ z = 14 \/ z = 15 \/ z = 16 \/ z = 17 \/ z = 18 \/ z = 19
              \/ z = 20 \/ z = 21 \/ z = 22 \/ z = 23 \/ z = 24 \/ z = 25
              \/ z = 26 \/ z = 27 \/ z = 28 \/ z = 29 \/ z = 30 \/ z = 31
              \/ z = 32 \/ z = 33 \/ z = 34 \/ z = 35 \/ z = 36 \/ z = 37
              \/ z = 38 \/ z = 39 \/ z = 40 \/ z = 41 \/ z = 42 \/ z = 43
              \/ z = 44 \/ z = 45 \/ z = 46 \/ z = 47 \/ z = 48 \/ z = 49
              \/ z = 50 \/ z = 51 \/ z = 52 \/ z = 53 \/ z = 54 \/ z = 55
              \/ z = 56 \/ z = 57 \/ z = 58 \/ z = 59 \/ z = 60) by lia.
  clear H.
  repeat (destruct C as [-> | C]; [vm_compute; reflexivity |]).
  subst z. vm_compute. reflexivity.
Qed.

(** X2.  The central meridian of a zone lies in that zone: for every zone
    number [z] of [1, 60], the longitude [6 * z - 183] that
    [zone_number_to_central_longitude] returns is given the zone number
    [z] back by [latlon_to_zone_number], at every latitude where the
    longitude is outside the Norway and Svalbard bands. *)
Theorem central_longitude_round_trip (z : Z) (latitude : double) :
  1 <= z <= 60 ->
  norway_band latitude (of_Z (6 * z - 183)) = false ->
  svalbard_band latitude (of_Z (6 * z - 183)) = false ->
  zone_number_to_central_longitude z = Ok (6 * z - 183)
  /\ latlon_to_zone_number latitude (of_Z (6 * z - 183)) = Ok z.
Proof.
  intros H Hn Hs. split.
  - apply zone_number_to_central_longitude_exact. lia.
  - rewrite latlon_to_zone_number_generic by assumption.
    now apply generic_zone_number_central.
Qed.

Lemma central_longitude_round_trip_witness :
  1 <= 32 <= 60
  /\ norway_band (of_Z 50) (of_Z (6 * 32 - 183)) = false
  /\ svalbard_band (of_Z 50) (of_Z (6 * 32 - 183)) = false
  /\ zone_number_to_central_longitude 32 = Ok (6 * 32 - 183)
  /\ latlon_to_zone_number (of_Z 50) (of_Z (6 * 32 - 183)) = Ok 32.
Proof.
  assert (H : 1 <= 32 <= 60) by lia.
  assert (Hn : norway_band (of_Z 50) (of_Z (6 * 32 - 183)) = false)
    by reflexivity.
  assert (Hs : svalbard_band (of_Z 50) (of_Z (6 * 32 - 183)) = false)
    by reflexivity.
  repeat (split; [assumption |]).
  exact (central_longitude_round_trip 32 (of_Z 50) H Hn Hs).
Defined.

(* ===================================================================== *)
(** ** What the zone rules can raise *)

Lemma to_int_Raise_inv (x : double) (e : exn) :
  to_int x = Raise e -> e = OverflowError \/ e = ValueError.
Proof.
  destruct x; simpl; intros H; try discriminate H;
    injection H as <-; auto.
Qed.

Lemma generic_zone_number_Raise_inv (longitude : double) (e : exn) :
  generic_zone_number longitude = Raise e ->
  e = OverflowError \/ e = ValueError.
Proof.
  unfold generic_zone_number. intros H.
  apply bind_Raise_inv in H. destruct H as [H | (i & _ & H)];
    [now apply to_int_Raise_inv in H | discriminate H].
Qed.

Lemma latlon_to_zone_number_Raise_inv (latitude longitude : double) (e : exn) :
  latlon_to_zone_number latitude longitude = Raise e ->
  e = OverflowError \/ e = ValueError.
Proof.
  unfold latlon_to_zone_number. intros H.
  repeat match type of H with
         | (if ?c then _ else _) = _ => destruct c
         end;
    try discriminate H; now apply generic_zone_number_Raise_inv in H.
Qed.

Lemma getitem_Raise_inv (s : string) (i : Z) (e : exn) :
  getitem s i = Raise e -> e = IndexError.
Proof.
  unfold getitem. intros H.
  repeat match type of H with
         | (if ?c then _ else _) = _ => destruct c
         | match ?c with Some _ => _ | None => _ end = _ => destruct c
         end;
    try discriminate H; now injection H.
Qed.

Lemma latitude_to_zone_letter_Raise_inv (latitude : double) (e : exn) :
  latitude_to_zone_letter latitude = Raise e ->
  e = OverflowError \/ e = ValueError \/ e = IndexError.
Proof.
  unfold latitude_to_zone_letter. intros H.
  destruct (_ && _); [| discriminate H].
  apply bind_Raise_inv in H. destruct H as [H | (i & _ & H)].
  - apply to_int_Raise_inv in H. tauto.
  - apply bind_Raise_inv in H. destruct H as [H | (c & _ & H)];
      [apply getitem_Raise_inv in H; auto | discriminate H].
Qed.

(* ===================================================================== *)
(** ** More on [from_latlon] *)

Section FromLatlonMore.

Context {libm : Libm} {unicode : Unicode}.

Local Open Scope py_scope.

(** Without [strict] nothing raises [OutOfRangeError]. *)
Lemma from_latlon_unchecked_Raise_inv latitude longitude force_zone_number e :
  from_latlon latitude longitude force_zone_number false = Raise e ->
  e = OverflowError \/ e = ValueError \/ e = IndexError
  \/ e = ZeroDivisionError.
Proof.
  unfold from_latlon. cbn [bind]. intros H.
  apply bind_Raise_inv in H. destruct H as [H | (z & _ & H)].
  - destruct force_zone_number; [discriminate H |].
    apply latlon_to_zone_number_Raise_inv in H. tauto.
  - apply bind_Raise_inv in H. destruct H as [H | (l & _ & H)].
    + apply latitude_to_zone_letter_Raise_inv in H. tauto.
    + apply bind_Raise_inv in H. destruct H as [H | (en & _ & H)];
        [| discriminate H].
      apply from_latlon_series_Raise_inv in H. tauto.
Qed.

(** X3.  [from_latlon] raises [OutOfRangeError] exactly when [strict] is
    set and the latitude is outside [-80, 84] or the longitude is outside
    [-180, 180]; whatever else goes wrong is reported by another
    exception. *)
Theorem from_latlon_out_of_range_iff latitude longitude force_zone_number
    strict :
  from_latlon latitude longitude force_zone_number strict
  = Raise OutOfRangeError
  <-> strict = true
      /\ (between #(-80) #84 latitude = false
          \/ between #(-180) #180 longitude = false).
Proof.
  split.
  - intros H. destruct strict.
    + split; [reflexivity |].
      destruct (between #(-80) #84 latitude) eqn:Hlat; [| now left].
      destruct (between #(-180) #180 longitude) eqn:Hlon; [| now right].
      rewrite from_latlon_strict_in_range in H by assumption.
      apply from_latlon_unchecked_Raise_inv in H.
      destruct H as [H | [H | [H | H]]]; discriminate H.
    + apply from_latlon_unchecked_Raise_inv in H.
      destruct H as [H | [H | [H | H]]]; discriminate H.
  - intros [-> H]. now apply from_latlon_strict_out_of_range.
Qed.

(** X4.  The zone number and the zone letter that [from_latlon] returns
    are those of [latlon_to_zone_number] and [latitude_to_zone_letter],
    and projecting again with the returned zone number forced gives the
    same tuple. *)
Theorem from_latlon_force_own_zone latitude longitude strict
    easting northing z l :
  from_latlon latitude longitude None strict = Ok (easting, northing, z, l) ->
  latlon_to_zone_number latitude longitude = Ok z
  /\ latitude_to_zone_letter latitude = Ok l
  /\ from_latlon latitude longitude (Some z) strict
     = Ok (easting, northing, z, l).
Proof.
  intros H.
  assert (Hz : latlon_to_zone_number latitude longitude = Ok z
               /\ latitude_to_zone_letter latitude = Ok l).
  { unfold from_latlon in H.
    apply bind_Ok_inv in H. destruct H as (u & _ & H).
    apply bind_Ok_inv in H. destruct H as (z' & Hz & H).
    apply bind_Ok_inv in H. destruct H as (l' & Hl & H).
    apply bind_Ok_inv in H. destruct H as (en & _ & H).
    injection H as _ _ <- <-. auto. }
  destruct Hz as [Hz Hl]. repeat split; try assumption.
  rewrite <- H. unfold from_latlon. rewrite Hz. reflexivity.
Qed.

(** X5.  A longitude that is an infinity or not a number is never
    projected when the zone is not forced: with [strict] the call raises
    [OutOfRangeError], without it [int()] raises [ValueError] on a
    not-a-number and [OverflowError] on an infinity, at every latitude. *)
Theorem from_latlon_longitude_not_finite latitude longitude strict :
  not_finite longitude = true ->
  from_latlon latitude longitude None strict
  = Raise (if strict then OutOfRangeError
           else match longitude with
                | S754_nan => ValueError
                | _ => OverflowError
                end).
Proof.
  intros Hn. destruct strict.
  - apply from_latlon_strict_out_of_range. right.
    destruct longitude as [s | [|] | | s m e]; try discriminate Hn;
      reflexivity.
  - unfold from_latlon. cbn [bind].
    assert (Hz : latlon_to_zone_number latitude longitude
                 = Raise match longitude with
                         | S754_nan => ValueError
                         | _ => OverflowError
                         end).
    { unfold latlon_to_zone_number.
      destruct longitude as [s | [|] | | s m e]; try discriminate Hn;
        destruct (#56 <=? latitude)%dbl, (latitude <? #64)%dbl,
                 (#72 <=? latitude)%dbl, (latitude <=? #84)%dbl;
        reflexivity. }
    rewrite Hz. reflexivity.
Qed.

End FromLatlonMore.

(* ===================================================================== *)
(** ** More on [to_latlon] *)

Section UpperAscii.

Context {unicode : Unicode}.

Lemma upper_ascii_idempotent (c : ascii) :
  upper_ascii (upper_ascii c) = upper_ascii c.
Proof.
  destruct c as [[|] [|] [|] [|] [|] [|] [|] [|]]; reflexivity.
Qed.

Lemma upper_ascii_is_ascii (c : ascii) :
  is_ascii c = true -> is_ascii (upper_ascii c) = true.
Proof.
  destruct c as [[|] [|] [|] [|] [|] [|] [|] [|]]; intros H;
    try discriminate H; reflexivity.
Qed.

(** An ASCII character is mapped on its own. *)
Lemma upper_cons (c : ascii) (s : string) :
  is_ascii c = true -> upper (String c s) = String (upper_ascii c) (upper s).
Proof.
  intros H. unfold upper. cbn [upper_from]. rewrite H. reflexivity.
Qed.

(** On ASCII text [upper] stays in ASCII and is idempotent. *)
Lemma upper_ascii_only (s : string) :
  ascii_only s = true ->
  ascii_only (upper s) = true /\ upper (upper s) = upper s.
Proof.
  induction s as [| c s IH]; [intros _; split; reflexivity |].
  cbn [ascii_only]. intros H. apply andb_prop in H. destruct H as [Hc Hs].
  destruct (IH Hs) as [IH1 IH2].
  rewrite (upper_cons c s Hc).
  pose proof (upper_ascii_is_ascii c Hc) as Hu.
  split.
  - cbn [ascii_only]. rewrite Hu, IH1. reflexivity.
  - rewrite (upper_cons _ _ Hu), upper_ascii_idempotent, IH2. reflexivity.
Qed.

(** The checks return only once the zone number is known to be valid. *)
Lemma to_latlon_checks_Ok_inv easting northing zone_number zone_letter
    northern strict b :
  to_latlon_checks easting northing zone_number zone_letter northern strict
  = Ok b ->
  valid_combination zone_letter northern = true
  /\ valid_zone_number zone_number = true
  /\ valid_letter_argument zone_letter = true
  /\ (strict = true ->
      between_excl #100000 #1000000 easting = true
      /\ between #0 #10000000 northing = true).
Proof.
  intros H.
  destruct (valid_combination zone_letter northern) eqn:Hc;
    [| rewrite to_latlon_checks_invalid in H by assumption; discriminate H].
  rewrite to_latlon_checks_valid in H by assumption.
  split; [reflexivity |].
  destruct strict,
    (between_excl #100000 #1000000 easting), (between #0 #10000000 northing),
    (valid_zone_number zone_number);
    cbn [negb raise_if bind] in H; try discriminate H;
    (split; [reflexivity |]);
    (split; [| intros; try discriminate; auto]);
    (destruct zone_letter as [[| a s] |]; try reflexivity;
     cbn [valid_letter_argument];
     destruct (valid_zone_letter (String a s)); [reflexivity |];
     cbn [negb raise_if bind] in H; discriminate H).
Qed.

End UpperAscii.

Section ToLatlonMore.

Context {libm : Libm} {unicode : Unicode}.

Local Open Scope py_scope.

(** X6.  The exceptions of [to_latlon].  It raises [OverflowError]
    exactly when the zone number does not fit a C int.  It raises
    [OutOfRangeError] exactly when the zone number fits a C int, the
    argument combination is valid, and the zone number is outside
    [1, 60], or the letter is not a valid one, or [strict] is set and
    the easting is outside [100000, 1000000) or the northing outside
    [0, 10000000].  Apart from these two and [ValueError], the only
    exception it can raise is [ZeroDivisionError]. *)
Theorem to_latlon_errors easting northing zone_number zone_letter northern
    strict :
  (to_latlon easting northing zone_number zone_letter northern strict
   = Raise OverflowError
   <-> ~ c_int_range zone_number)
  /\ (to_latlon easting northing zone_number zone_letter northern strict
      = Raise OutOfRangeError
      <-> c_int_range zone_number
          /\ valid_combination zone_letter northern = true
          /\ (valid_zone_number zone_number = false
              \/ valid_letter_argument zone_letter = false
              \/ (strict = true
                  /\ (between_excl #100000 #1000000 easting = false
                      \/ between #0 #10000000 northing = false))))
  /\ (forall e,
         to_latlon easting northing zone_number zone_letter northern strict
         = Raise e ->
         e = OverflowError \/ e = ValueError \/ e = OutOfRangeError
         \/ e = ZeroDivisionError).
Proof.
  split; [split | split; [split |]].
  - intros H. apply to_latlon_Raise_inv in H.
    destruct H as [[_ H] | [_ [H | H]]]; [exact H | | discriminate H].
    apply to_latlon_checks_Raise_inv in H.
    destruct H as [[H _] | [H _]]; discriminate H.
  - apply to_latlon_overflow.
  - intros H. apply to_latlon_Raise_inv in H.
    destruct H as [[H _] | [Hz [H | H]]]; try discriminate H.
    split; [exact Hz |].
    destruct (valid_combination zone_letter northern) eqn:Hc;
      [| rewrite to_latlon_checks_invalid in H by assumption; discriminate H].
    split; [reflexivity |].
    rewrite to_latlon_checks_valid in H by assumption.
    destruct (valid_zone_number zone_number); [| now left].
    destruct (valid_letter_argument zone_letter) eqn:Hl; [| now right; left].
    right; right.
    destruct strict.
    + split; [reflexivity |].
      destruct (between_excl #100000 #1000000 easting); [| now left].
      destruct (between #0 #10000000 northing); [| now right].
      exfalso. cbn [negb raise_if bind] in H.
      destruct zone_letter as [[| a s] |]; try discriminate H.
      cbn [valid_letter_argument] in Hl. rewrite Hl in H. discriminate H.
    + exfalso. cbn [negb raise_if bind] in H.
      destruct zone_letter as [[| a s] |]; try discriminate H.
      cbn [valid_letter_argument] in Hl. rewrite Hl in H. discriminate H.
  - intros [Hz [Hc H]]. rewrite to_latlon_c_int by exact Hz.
    rewrite to_latlon_checks_valid by assumption.
    destruct H as [H | [H | [-> H]]].
    + rewrite H.
      destruct strict,
        (between_excl #100000 #1000000 easting),
        (between #0 #10000000 northing); reflexivity.
    + destruct zone_letter as [[| a s] |]; try discriminate H.
      cbn [valid_letter_argument] in H. rewrite H.
      destruct strict,
        (between_excl #100000 #1000000 easting),
        (between #0 #10000000 northing),
        (valid_zone_number zone_number); reflexivity.
    + destruct H as [H | H]; rewrite H;
        [| destruct (between_excl #100000 #1000000 easting)]; reflexivity.
  - intros e H. apply to_latlon_Raise_inv in H.
    destruct H as [[H _] | [_ [H | H]]]; [tauto | | tauto].
    apply to_latlon_checks_Raise_inv in H. tauto.
Qed.

(** X7.  [strict] only refuses: a call with [strict] either raises
    [OutOfRangeError] or has the result, error or value, of the same call
    without [strict].  This holds for [to_latlon] and for [from_latlon]. *)
Theorem strict_only_refuses :
  (forall easting northing zone_number zone_letter northern,
      to_latlon easting northing zone_number zone_letter northern true
      = Raise OutOfRangeError
      \/ to_latlon easting northing zone_number zone_letter northern true
         = to_latlon easting northing zone_number zone_letter northern false)
  /\ (forall latitude longitude force_zone_number,
         from_latlon latitude longitude force_zone_number true
         = Raise OutOfRangeError
         \/ from_latlon latitude longitude force_zone_number true
            = from_latlon latitude longitude force_zone_number false).
Proof.
  split.
  - intros. unfold to_latlon.
    destruct (to_c_int zone_number) as [z | e]; cbn [bind];
      [| right; reflexivity].
    destruct (valid_combination zone_letter northern) eqn:Hc.
    + rewrite !to_latlon_checks_valid by assumption.
      destruct (between_excl #100000 #1000000 easting); [| now left].
      destruct (between #0 #10000000 northing); [| now left].
      right. reflexivity.
    + right. rewrite !to_latlon_checks_invalid by assumption. reflexivity.
  - intros.
    destruct (between #(-80) #84 latitude) eqn:Hlat;
      [| left; apply from_latlon_strict_out_of_range; now left].
    destruct (between #(-180) #180 longitude) eqn:Hlon;
      [| left; apply from_latlon_strict_out_of_range; now right].
    right. now apply from_latlon_strict_in_range.
Qed.

(** X8.  An ASCII zone letter is read without regard to case: a call
    with a string of ASCII characters and the call with its uppercase
    form have the same result. *)
Theorem to_latlon_letter_case easting northing zone_number s northern strict :
  ascii_only s = true ->
  to_latlon easting northing zone_number (Some s) northern strict
  = to_latlon easting northing zone_number (Some (upper s)) northern strict.
Proof.
  intros Hs. unfold to_latlon.
  destruct (to_c_int zone_number) as [z | e]; cbn [bind]; [| reflexivity].
  f_equal. unfold to_latlon_checks.
  destruct s as [| a s]; [reflexivity |].
  pose proof (proj2 (upper_ascii_only _ Hs)) as I.
  cbn [ascii_only] in Hs. apply andb_prop in Hs. destruct Hs as [Ha _].
  rewrite (upper_cons a s Ha) in I |- *.
  cbn [truthy]. rewrite I. reflexivity.
Qed.



End ToLatlonMore.

(* ===================================================================== *)
(** ** Rounding between two integers *)

(** [binary_round_aux_stages] for a mantissa that may be zero, as a
    division leaves it. *)
Lemma binary_round_aux_stages_Z (s : bool) (m e : Z) (l : location) :
  0 <= m ->
  exists m2 m3,
    let e1 := Z.max e (fexp prec emax (Zdigits2 m + e)) in
    let e2 := Z.max e1 (fexp prec emax (Zdigits2 m2 + e1)) in
    m / 2 ^ (e1 - e) <= m2 <= m / 2 ^ (e1 - e) + 1
    /\ m3 = m2 / 2 ^ (e2 - e1)
    /\ binary_round_aux prec emax s m e l
       = match m3 with
         | Z0 => S754_zero s
         | Zpos m => if e2 <=? 971 then S754_finite s m e2 else S754_infinity s
         | Zneg _ => S754_nan
         end.
Proof.
  intros Hm. unfold binary_round_aux.
  destruct (shr_fexp_cases m e l Hm) as (mrs1 & -> & Hm1 & _).
  set (e1 := Z.max e (fexp prec emax (Zdigits2 m + e))).
  set (m2 := round_nearest_even (shr_m mrs1) (loc_of_shr_record mrs1)).
  pose proof (round_nearest_even_bounds (shr_m mrs1) (loc_of_shr_record mrs1))
    as Hr. fold m2 in Hr. rewrite Hm1 in Hr. fold e1 in Hr.
  assert (H2 : 0 <= m2).
  { apply Z.le_trans with (2 := proj1 Hr). apply Z.div_pos; [lia |].
    apply Z.pow_pos_nonneg; unfold e1; lia. }
  destruct (shr_fexp_cases m2 e1 loc_Exact H2) as (mrs2 & -> & Hm2 & _).
  exists m2, (shr_m mrs2). cbv zeta.
  split; [exact Hr |]. split; [exact Hm2 |]. reflexivity.
Qed.

Lemma Zdigits2_upper (m k : Z) : 0 <= m < 2 ^ k -> 0 <= k -> Zdigits2 m <= k.
Proof.
  intros [H0 H] Hk. destruct m as [| p |]; simpl; try lia.
  now apply digits2_pos_upper.
Qed.

(** A mantissa [m] with exponent [e] that stands for a number of
    [A, B + 1/2) is rounded to a double with an integer part of [A, B]. *)
Lemma binary_round_aux_int_part (m e : Z) (l : location) (A B : Z) :
  0 <= m -> e <= -1 -> 0 <= B < 2 ^ 51 ->
  A * 2 ^ (- e) <= m -> 2 * m < (2 * B + 1) * 2 ^ (- e) ->
  int_part_in A B (binary_round_aux prec emax false m e l).
Proof.
  intros Hm He HB Hlo Hhi.
  destruct (binary_round_aux_stages_Z false m e l Hm)
    as (m2 & m3 & H2 & H3 & ->).
  cbv zeta in *. rewrite !fexp_binary64 in *.
  (* first stage *)
  assert (Hd : Zdigits2 m <= 51 - e).
  { replace (51 - e) with (51 + - e) by lia.
    apply Zdigits2_upper; [| lia]. split; [lia |].
    rewrite Z.pow_add_r by lia.
    assert (0 < 2 ^ (- e)) by (apply Z.pow_pos_nonneg; lia). nia. }
  set (e1 := Z.max e (Z.max (Zdigits2 m + e - 53) (-1074))) in *.
  assert (He1 : - 1074 <= e1 <= -1 /\ e <= e1) by (unfold e1; lia).
  assert (N1 : 0 < 2 ^ (e1 - e)) by (apply Z.pow_pos_nonneg; lia).
  assert (G1 : 0 < 2 ^ (- e1 - 1)) by (apply Z.pow_pos_nonneg; lia).
  assert (E1 : 2 ^ (- e) = 2 * 2 ^ (- e1 - 1) * 2 ^ (e1 - e)).
  { rewrite <- Z.pow_succ_r, <- Z.pow_add_r by lia. f_equal. lia. }
  assert (F1 : 2 ^ (- e1) = 2 * 2 ^ (- e1 - 1)).
  { rewrite <- Z.pow_succ_r by lia. f_equal. lia. }
  assert (Hm2 : A * 2 ^ (- e1) <= m2 <= (2 * B + 1) * 2 ^ (- e1 - 1)).
  { split.
    - apply Z.le_trans with (2 := proj1 H2).
      apply Z.div_le_lower_bound; [lia |]. rewrite F1. nia.
    - assert (m / 2 ^ (e1 - e) < (2 * B + 1) * 2 ^ (- e1 - 1)); [| lia].
      apply Z.div_lt_upper_bound; [lia |]. nia. }
  assert (P2 : 0 <= m2).
  { apply Z.le_trans with (2 := proj1 H2). apply Z.div_pos; lia. }
  clear H2 Hlo Hhi E1.
  (* second stage *)
  assert (Hd2 : Zdigits2 m2 <= 51 - e1).
  { replace (51 - e1) with (51 + - e1) by lia.
    apply Zdigits2_upper; [| lia]. split; [lia |].
    rewrite Z.pow_add_r by lia. rewrite F1. nia. }
  set (e2 := Z.max e1 (Z.max (Zdigits2 m2 + e1 - 53) (-1074))) in *.
  assert (He2 : - 1074 <= e2 <= -1 /\ e1 <= e2) by (unfold e2; lia).
  assert (N2 : 0 < 2 ^ (e2 - e1)) by (apply Z.pow_pos_nonneg; lia).
  assert (G2 : 0 < 2 ^ (- e2)) by (apply Z.pow_pos_nonneg; lia).
  assert (E2 : 2 ^ (- e1) = 2 ^ (- e2) * 2 ^ (e2 - e1)).
  { rewrite <- Z.pow_add_r by lia. f_equal. lia. }
  assert (Hm3 : A * 2 ^ (- e2) <= m3 < (B + 1) * 2 ^ (- e2)).
  { rewrite H3. split.
    - apply Z.div_le_lower_bound; [lia |]. nia.
    - apply Z.div_lt_upper_bound; [lia |]. nia. }
  assert (P3 : 0 <= m3) by (rewrite H3; apply Z.div_pos; lia).
  clear H3.
  destruct m3 as [| p3 |].
  - simpl. nia.
  - assert (L : (e2 <=? 971) = true) by (apply Z.leb_le; lia).
    rewrite L. simpl. split; [lia | exact Hm3].
  - lia.
Qed.

(** The same for the exact result of an addition or a subtraction: a
    number of [A, B]. *)
Lemma binary_normalize_int_part (M e A B : Z) :
  0 <= M -> e <= -1 -> 0 <= B < 2 ^ 51 ->
  A * 2 ^ (- e) <= M <= B * 2 ^ (- e) ->
  int_part_in A B (binary_normalize prec emax M e false).
Proof.
  intros HM He HB [Hlo Hhi].
  assert (P0 : 0 < 2 ^ (- e)) by (apply Z.pow_pos_nonneg; lia).
  destruct M as [| p |]; [simpl; nia | | lia].
  simpl binary_normalize. unfold binary_round.
  set (fe := fexp prec emax (Zpos (digits2_pos p) + e)).
  pose proof (shl_align_snd p e fe) as Hs.
  pose proof (shl_align_fst p e (Z.min e fe)) as Hf.
  assert (Hsame : shl_align p e (Z.min e fe) = shl_align p e fe).
  { unfold shl_align.
    destruct (fe - e) as [| k | k] eqn:Ek.
    - replace (Z.min e fe - e) with 0 by lia. reflexivity.
    - replace (Z.min e fe - e) with 0 by lia. reflexivity.
    - replace (Z.min e fe) with fe by lia. rewrite Ek. reflexivity. }
  rewrite Hsame in Hf. specialize (Hf ltac:(lia)).
  destruct (shl_align p e fe) as [mz ez]. cbn [fst snd] in *. subst ez.
  set (ez := Z.min e fe) in *.
  assert (Q0 : 0 < 2 ^ (e - ez)) by (apply Z.pow_pos_nonneg; unfold ez; lia).
  assert (E1 : 2 ^ (- ez) = 2 ^ (- e) * 2 ^ (e - ez)).
  { rewrite <- Z.pow_add_r by (unfold ez; lia). f_equal. lia. }
  apply binary_round_aux_int_part; try lia.
  - rewrite Hf, E1. nia.
  - rewrite Hf, E1. nia.
Qed.

Lemma int_part_in_to_int (A B : Z) (x : double) :
  int_part_in A B x -> exists k, to_int x = Ok k /\ A <= k <= B.
Proof.
  destruct x as [s | s | | s m e]; simpl; try contradiction.
  - intros H. exists 0. split; [reflexivity | lia].
  - destruct s; [contradiction |].
    intros [He [Hlo Hhi]].
    assert (P : 0 < 2 ^ (- e)) by (apply Z.pow_pos_nonneg; lia).
    assert (D : Z.shiftl (Zpos m) e = Zpos m / 2 ^ (- e)).
    { apply Z.shiftl_div_pow2. lia. }
    exists (Z.shiftl (Zpos m) e). split; [reflexivity |]. rewrite D.
    split.
    + apply Z.div_le_lower_bound; lia.
    + apply Z.lt_succ_r. apply Z.div_lt_upper_bound; lia.
Qed.

(** ** Doubles of an interval, sums and quotients *)

(** A normal double has a 53-bit mantissa. *)
Lemma is_double_normal (s : bool) (m : positive) (e : Z) :
  is_double (S754_finite s m e) -> - 1074 < e -> 2 ^ 52 <= Zpos m.
Proof.
  unfold is_double, valid_binary, bounded, canonical_mantissa.
  rewrite fexp_binary64. intros H He.
  apply andb_prop in H. destruct H as [H1 _]. apply Z.eqb_eq in H1.
  pose proof (digits2_pos_bounds m) as [Hlo _].
  assert (D : Zpos (digits2_pos m) = 53) by lia.
  rewrite D in Hlo. exact Hlo.
Qed.

(** A double between two normal constants of one exponent, of opposite
    signs. *)
Lemma between_finite (s : bool) (m m1 m2 : positive) (e ec : Z) :
  is_double (S754_finite s m e) ->
  2 ^ 52 <= Zpos m1 -> 2 ^ 52 <= Zpos m2 ->
  between (S754_finite true m1 ec) (S754_finite false m2 ec)
          (S754_finite s m e) = true ->
  e <= ec /\ Zpos m <= (if s then Zpos m1 else Zpos m2) * 2 ^ (ec - e).
Proof.
  intros Hv H1 H2 Hb. apply is_double_finite in Hv. destruct Hv as [Hm _].
  unfold between in Hb. apply andb_prop in Hb. destruct Hb as [Ha Hb].
  assert (K : e < ec \/ (e = ec /\ Zpos m <= if s then Zpos m1 else Zpos m2)).
  { destruct s.
    - apply leb_finite_neg in Ha.
      destruct Ha as [L | [E H]]; [left; exact L | right].
      split; [symmetry; exact E | exact H].
    - apply leb_finite_pos in Hb. exact Hb. }
  clear Ha Hb. destruct K as [L | [-> H]].
  - split; [lia |].
    assert (P : 2 ^ 1 <= 2 ^ (ec - e)) by (apply Z.pow_le_mono_r; lia).
    change (2 ^ 1) with 2 in P. change (2 ^ 53) with (2 * 2 ^ 52) in Hm.
    set (T := 2 ^ 52) in *. destruct s; nia.
  - split; [lia |]. rewrite Z.sub_diag. change (2 ^ 0) with 1. lia.
Qed.

(** The sum of a double of [A - C, B - C] and the integer constant [C]
    is a double with an integer part of [A, B]. *)
Lemma add_int_part (s : bool) (m mc : positive) (e ec C A B : Z) :
  e <= ec -> ec <= -1 -> Zpos mc = C * 2 ^ (- ec) ->
  0 <= A -> 0 <= B < 2 ^ 51 ->
  (A - C) * 2 ^ (- e) <= cond_Zopp s (Zpos m) <= (B - C) * 2 ^ (- e) ->
  int_part_in A B (S754_finite s m e + S754_finite false mc ec)%dbl.
Proof.
  intros He Hec Hc HA HB Hx. unfold add, SFadd.
  rewrite Z.min_l by lia.
  unfold shl_align at 1. rewrite Z.sub_diag. cbn [fst].
  rewrite (shl_align_fst mc ec e) by lia. rewrite Hc.
  assert (P : 0 < 2 ^ (- e)) by (apply Z.pow_pos_nonneg; lia).
  assert (E : C * 2 ^ (- ec) * 2 ^ (ec - e) = C * 2 ^ (- e)).
  { rewrite <- Z.mul_assoc, <- Z.pow_add_r by lia. do 2 f_equal. lia. }
  cbn [cond_Zopp]. rewrite E.
  apply binary_normalize_int_part; try lia; nia.
Qed.

(** The quotient by 6 of a double below [Bx + 1] has an integer part of
    at most [B], when [(Bx + 1) / 6 <= B + 1/2]. *)
Lemma div_6_int_part (x : double) (my : positive) (Bx B : Z) :
  Zpos (digits2_pos my) = 53 -> Zpos my = 6 * 2 ^ 50 ->
  0 <= Bx < 512 -> 0 <= B < 2 ^ 51 -> Bx + 1 <= 3 * (2 * B + 1) ->
  int_part_in 0 Bx x ->
  int_part_in 0 B (x / S754_finite false my (-50))%dbl.
Proof.
  intros Hd Hy HBx HB Hrel. destruct x as [s | s | | s m e]; cbn [int_part_in];
    try contradiction.
  - intros _. unfold div, SFdiv. cbn [int_part_in]. lia.
  - destruct s; [contradiction |]. intros [He [_ Hm]].
    unfold div, SFdiv, SFdiv_core_binary.
    cbn [Zdigits2 xorb]. rewrite Hd, fexp_binary64.
    assert (D1 : Zpos (digits2_pos m) <= 9 - e).
    { apply digits2_pos_upper. replace (9 - e) with (9 + - e) by lia.
      rewrite Z.pow_add_r by lia.
      assert (0 < 2 ^ (- e)) by (apply Z.pow_pos_nonneg; lia).
      change (2 ^ 9) with 512. nia. }
    set (e' := Z.min (Z.max (Zpos (digits2_pos m) + e - (53 + -50) - 53)
                            (-1074)) (e - -50)).
    assert (He' : e' <= -47 /\ e' <= e + 50) by (unfold e'; lia).
    set (sh := e - -50 - e').
    assert (Hsh : 0 <= sh) by (unfold sh; lia).
    set (m' := match sh with
               | 0 => Zpos m
               | Zpos _ => Z.shiftl (Zpos m) sh
               | Zneg _ => 0
               end).
    assert (Hm' : m' = Zpos m * 2 ^ sh).
    { unfold m'. destruct sh as [| p | p] eqn:Es.
      - simpl. lia.
      - apply Z.shiftl_mul_pow2. lia.
      - lia. }
    clearbody m'.
    pose proof (Z_div_mod m' (Zpos my) ltac:(lia)) as Hq.
    destruct (Z.div_eucl m' (Zpos my)) as [q r]. destruct Hq as [Hq Hr].
    assert (P : 0 < 2 ^ (- e)) by (apply Z.pow_pos_nonneg; lia).
    assert (P' : 0 < 2 ^ (- e')) by (apply Z.pow_pos_nonneg; lia).
    assert (S : 0 < 2 ^ sh) by (apply Z.pow_pos_nonneg; lia).
    assert (E : 2 ^ (- e) * 2 ^ sh = 2 ^ 50 * 2 ^ (- e')).
    { rewrite <- !Z.pow_add_r by lia. f_equal. unfold sh. lia. }
    assert (T : 0 < 2 ^ 50) by reflexivity.
    clearbody e' sh. rewrite Hy in *. clear Hy Hd D1.
    set (t := 2 ^ 50) in *. clearbody t.
    assert (M0 : 0 <= m') by (rewrite Hm'; apply Z.mul_nonneg_nonneg; lia).
    assert (M1 : m' < (Bx + 1) * (2 ^ (- e) * 2 ^ sh)).
    { rewrite Hm', Z.mul_assoc. apply Z.mul_lt_mono_pos_r; lia. }
    rewrite E in M1. clear E Hm' Hm.
    assert (Q0 : 0 <= q) by nia.
    assert (Q1 : t * (6 * q) < t * ((Bx + 1) * 2 ^ (- e'))) by lia.
    apply Z.mul_lt_mono_pos_l in Q1; [| exact T].
    apply binary_round_aux_int_part; try lia. nia.
Qed.

(** A double between [-C1] and [C2], plus [C1]: a double with an integer
    part of [0, C1 + C2]. *)
Lemma add_between_int_part (x : double) (m1 m2 : positive) (ec C1 C2 : Z) :
  is_double x -> - 1074 <= ec <= -1 ->
  2 ^ 52 <= Zpos m1 -> 2 ^ 52 <= Zpos m2 ->
  Zpos m1 = C1 * 2 ^ (- ec) -> Zpos m2 = C2 * 2 ^ (- ec) ->
  C1 + C2 < 2 ^ 51 ->
  between (S754_finite true m1 ec) (S754_finite false m2 ec) x = true ->
  int_part_in 0 (C1 + C2) (x + S754_finite false m1 ec)%dbl.
Proof.
  intros Hv Hec H1 H2 E1 E2 HC Hb.
  assert (P : 0 < 2 ^ (- ec)) by (apply Z.pow_pos_nonneg; lia).
  assert (P1 : 0 < C1) by nia.
  assert (P2 : 0 < C2) by nia.
  destruct x as [s | s | | s m e].
  - unfold add, SFadd. cbn [int_part_in]. split; [exact Hec | nia].
  - destruct s; discriminate Hb.
  - discriminate Hb.
  - destruct (between_finite s m m1 m2 e ec Hv H1 H2 Hb) as [He Hm].
    assert (Q : 0 < 2 ^ (- e)) by (apply Z.pow_pos_nonneg; lia).
    assert (E : 2 ^ (- ec) * 2 ^ (ec - e) = 2 ^ (- e)).
    { rewrite <- Z.pow_add_r by lia. f_equal. lia. }
    apply add_int_part with (C := C1); try lia.
    rewrite E1, E2 in Hm. clear E1 E2 H1 H2.
    destruct s; cbn [cond_Zopp]; nia.
Qed.

Lemma of_Z_180 : of_Z 180 = S754_finite false 6333186975989760 (-45).
Proof. reflexivity. Qed.

Lemma of_Z_neg180 : of_Z (-180) = S754_finite true 6333186975989760 (-45).
Proof. reflexivity. Qed.

Lemma of_Z_176 : of_Z 176 = S754_finite false 6192449487634432 (-45).
Proof. reflexivity. Qed.

Lemma of_Z_6 : of_Z 6 = S754_finite false 6755399441055744 (-50).
Proof. reflexivity. Qed.

(** The quotient by 6 of a double below [Bx + 1]. *)
Lemma div_6_bound (x : double) (Bx B : Z) :
  0 <= Bx < 512 -> 0 <= B < 2 ^ 51 -> Bx + 1 <= 3 * (2 * B + 1) ->
  int_part_in 0 Bx x -> int_part_in 0 B (x / #6)%dbl.
Proof.
  intros HBx HB Hrel Hx. rewrite of_Z_6.
  apply div_6_int_part with (Bx := Bx); try assumption; reflexivity.
Qed.

(* ===================================================================== *)
(** ** The range of the zone number *)

(** [longitude + 180] for a longitude of [-180, hi], [hi] an integer
    constant with the exponent of 180. *)
Lemma add_180_int_part (longitude : double) (m2 : positive) (C2 : Z) :
  is_double longitude ->
  2 ^ 52 <= Zpos m2 -> Zpos m2 = C2 * 2 ^ 45 -> C2 <= 180 ->
  between #(-180) (S754_finite false m2 (-45)) longitude = true ->
  int_part_in 0 (180 + C2) (longitude + #180)%dbl.
Proof.
  intros Hv H2 E2 HC Hb. rewrite of_Z_neg180 in Hb. rewrite of_Z_180.
  apply add_between_int_part with (m2 := m2); try assumption; try lia;
    reflexivity.
Qed.

(** The generic formula on a longitude of [-180, hi]. *)
Lemma generic_zone_number_bound (longitude : double) (m2 : positive)
    (C2 B : Z) :
  is_double longitude ->
  2 ^ 52 <= Zpos m2 -> Zpos m2 = C2 * 2 ^ 45 -> - 180 <= C2 <= 180 ->
  0 <= B < 2 ^ 51 -> 181 + C2 <= 3 * (2 * B + 1) ->
  between #(-180) (S754_finite false m2 (-45)) longitude = true ->
  exists z, generic_zone_number longitude = Ok z /\ 1 <= z <= B + 1.
Proof.
  intros Hv H2 E2 HC HB Hrel Hb.
  pose proof (add_180_int_part longitude m2 C2 Hv H2 E2 ltac:(lia) Hb) as Hs.
  apply (div_6_bound _ (180 + C2) B) in Hs; try lia.
  destruct (int_part_in_to_int _ _ _ Hs) as (k & Hk & Hr).
  exists (k + 1). unfold generic_zone_number. rewrite Hk.
  split; [reflexivity | lia].
Qed.

(** On the strict longitude range the zone number is in [1, 61], and in
    [1, 60] up to longitude 176. *)
Lemma latlon_to_zone_number_in_range (latitude longitude : double) :
  is_double longitude ->
  between #(-180) #180 longitude = true ->
  exists z,
    latlon_to_zone_number latitude longitude = Ok z
    /\ 1 <= z <= 61
    /\ ((longitude <=? #176)%dbl = true -> valid_zone_number z = true).
Proof.
  intros Hv Hb.
  assert (G : exists z, generic_zone_number longitude = Ok z
                        /\ 1 <= z <= 61
                        /\ ((longitude <=? #176)%dbl = true ->
                            valid_zone_number z = true)).
  { rewrite of_Z_180 in Hb.
    destruct (generic_zone_number_bound longitude 6333186975989760 180 60 Hv)
      as (z & Hz & Hr); try reflexivity; try lia; try exact Hb.
    exists z. split; [exact Hz |]. split; [exact Hr |].
    intros H176. rewrite of_Z_176 in H176.
    assert (Hb' : between #(-180) (S754_finite false 6192449487634432 (-45))
                          longitude = true).
    { unfold between in *. apply andb_prop in Hb. destruct Hb as [-> _].
      rewrite H176. reflexivity. }
    destruct (generic_zone_number_bound longitude 6192449487634432 176 59 Hv)
      as (z' & Hz' & Hr'); try reflexivity; try lia; try exact Hb'.
    rewrite Hz in Hz'. injection Hz' as <-.
    unfold valid_zone_number.
    apply andb_true_intro. split; [apply Z.leb_le | apply Z.leb_le]; lia. }
  unfold latlon_to_zone_number.
  destruct (_ && _ && (_ && _)).
  { exists 32. split; [reflexivity |]. split; [lia | reflexivity]. }
  destruct (_ && _ && _); [| exact G].
  destruct (longitude <=? #9)%dbl.
  { exists 31. split; [reflexivity |]. split; [lia | reflexivity]. }
  destruct (longitude <=? #21)%dbl.
  { exists 33. split; [reflexivity |]. split; [lia | reflexivity]. }
  destruct (longitude <=? #33)%dbl.
  { exists 35. split; [reflexivity |]. split; [lia | reflexivity]. }
  destruct (longitude <=? #42)%dbl.
  { exists 37. split; [reflexivity |]. split; [lia | reflexivity]. }
  exact G.
Qed.

(* ===================================================================== *)
(** ** The hemisphere of the zone letter *)

Lemma of_Z_neg1 : of_Z (-1) = S754_finite true 4503599627370496 (-52).
Proof. reflexivity. Qed.

(** [latitude + 80] on the northern bands. *)
Lemma add_80_north (latitude : double) :
  is_double latitude ->
  (#0 <=? latitude)%dbl = true -> (latitude <=? #84)%dbl = true ->
  int_part_in 80 164 (latitude + #80)%dbl.
Proof.
  intros Hv H0 H84. rewrite of_Z_80. rewrite of_Z_84 in H84.
  destruct latitude as [s | s | | s m e].
  - clear. unfold add, SFadd. cbn [int_part_in].
    change (2 ^ (- -46)) with 70368744177664. lia.
  - destruct s; discriminate.
  - discriminate.
  - destruct s; [discriminate H0 |]. clear H0.
    apply is_double_finite in Hv. destruct Hv as [Hm _].
    apply leb_finite_pos in H84.
    assert (He : e <= -46) by lia.
    assert (Q : Zpos m <= 84 * 2 ^ (- e)).
    { destruct H84 as [L | [-> Hle]].
      - assert (2 ^ 47 <= 2 ^ (- e)) by (apply Z.pow_le_mono_r; lia).
        change (2 ^ 47) with 140737488355328 in *.
        change (2 ^ 53) with 9007199254740992 in *. lia.
      - change (2 ^ (- -46)) with 70368744177664. lia. }
    clear H84 Hm.
    apply add_int_part with (C := 80); try lia; try reflexivity.
    cbn [cond_Zopp]. lia.
Qed.

(** [latitude + 80] on the southern bands, from -1 downwards. *)
Lemma add_80_south (latitude : double) :
  is_double latitude ->
  (#(-80) <=? latitude)%dbl = true -> (latitude <=? #(-1))%dbl = true ->
  int_part_in 0 79 (latitude + #80)%dbl.
Proof.
  intros Hv H80 H1. rewrite of_Z_80. rewrite of_Z_neg80 in H80.
  rewrite of_Z_neg1 in H1.
  destruct latitude as [s | s | | s m e].
  - discriminate H1.
  - destruct s; discriminate.
  - discriminate.
  - destruct s; [| discriminate H1].
    apply leb_finite_neg in H80. apply leb_finite_neg in H1.
    assert (He : - 52 <= e <= -46) by lia.
    assert (Q : 2 ^ (- e) <= Zpos m <= 80 * 2 ^ (- e)).
    { split.
      - destruct H1 as [L | [-> Hle]].
        + pose proof (is_double_normal true m e Hv ltac:(lia)) as Hn.
          apply Z.le_trans with (2 := Hn). apply Z.pow_le_mono_r; lia.
        + exact Hle.
      - apply is_double_finite in Hv. destruct Hv as [Hm _].
        destruct H80 as [L | [<- Hle]].
        + assert (2 ^ 47 <= 2 ^ (- e)) by (apply Z.pow_le_mono_r; lia).
          change (2 ^ 47) with 140737488355328 in *.
          change (2 ^ 53) with 9007199254740992 in *. lia.
        + change (2 ^ (- -46)) with 70368744177664. lia. }
    clear H80 H1 Hv.
    apply add_int_part with (C := 80); try lia; try reflexivity.
    cbn [cond_Zopp]. lia.
Qed.

Section LetterHemisphere.

Context {unicode : Unicode}.

(** The letters of [ZONE_LETTERS], and their hemisphere by index. *)
Lemma getitem_ZONE_LETTERS (i : Z) (l : string) :
  getitem ZONE_LETTERS i = Ok l ->
  In l band_letters
  /\ (0 <= i <= 9 -> String.leb "N" (upper l) = false)
  /\ (10 <= i <= 20 -> String.leb "N" (upper l) = true).
Proof.
  unfold getitem. change (Z.of_nat (String.length ZONE_LETTERS)) with 21.
  cbv zeta.
  destruct (Z.ltb_spec i 0) as [N | P].
  - destruct (Z.leb_spec 0 (i + 21)) as [L | L]; [| discriminate].
    destruct (Z.ltb_spec (i + 21) 21) as [U | U]; [| discriminate].
    cbn [andb]. intros H.
    assert (In l band_letters).
    { assert (K : (Z.to_nat (i + 21) < 21)%nat) by lia.
      revert H K. generalize (Z.to_nat (i + 21)). intros k.
      do 21 (destruct k as [| k];
             [intros [= <-] _; cbv; tauto |]).
      intros _ K. lia. }
    split; [assumption |]. split; intros; lia.
  - destruct (Z.leb_spec 0 i) as [L | L]; [| lia].
    destruct (Z.ltb_spec i 21) as [U | U]; [| discriminate].
    cbn [andb]. intros H.
    assert (K : (Z.to_nat i < 21)%nat) by lia.
    assert (R : (0 <= i <= 9 -> (Z.to_nat i <= 9)%nat)
                /\ (10 <= i <= 20 -> (10 <= Z.to_nat i)%nat)) by lia.
    revert H K R. generalize (Z.to_nat i). clear. intros k.
    do 21 (destruct k as [| k];
           [intros [= <-] _ [R1 R2];
            split; [cbv; tauto |];
            split; intros R; first [reflexivity | apply R1 in R; lia
                                   | apply R2 in R; lia] |]).
    intros _ K. lia.
Qed.

Lemma latitude_to_zone_letter_Ok_inv (latitude : double) (l : string) :
  latitude_to_zone_letter latitude = Ok (Some l) ->
  exists k, to_int (latitude + #80)%dbl = Ok k
            /\ getitem ZONE_LETTERS (Z.shiftr k 3) = Ok l.
Proof.
  unfold latitude_to_zone_letter.
  destruct (_ && _); [| discriminate].
  intros H. apply bind_Ok_inv in H. destruct H as (k & Hk & H).
  apply bind_Ok_inv in H. destruct H as (c & Hc & H).
  injection H as <-. exists k. split; assumption.
Qed.

Lemma band_letters_valid (l : string) :
  In l band_letters ->
  truthy (Some l) = true /\ valid_letter_argument (Some l) = true
  /\ upper l = l.
Proof.
  intros H. cbv [band_letters In] in H.
  repeat (destruct H as [<- | H]; [repeat split |]). contradiction.
Qed.

Lemma latitude_to_zone_letter_band_letter (latitude : double) (l : string) :
  latitude_to_zone_letter latitude = Ok (Some l) -> In l band_letters.
Proof.
  intros H. apply latitude_to_zone_letter_Ok_inv in H.
  destruct H as (k & _ & H). now apply getitem_ZONE_LETTERS in H.
Qed.

Lemma leb_0_ltb_0 (x : double) :
  (#0 <=? x)%dbl = true -> (x <? #0)%dbl = false.
Proof. destruct x as [s | [|] | | [|] m e]; intros H; try discriminate H; reflexivity. Qed.

Lemma leb_neg1_ltb_0 (x : double) :
  (x <=? #(-1))%dbl = true -> (x <? #0)%dbl = true.
Proof. destruct x as [s | [|] | | [|] m e]; intros H; try discriminate H; reflexivity. Qed.

Lemma shiftr_3_bounds (k A B : Z) :
  8 * A <= k <= 8 * B + 7 -> A <= Z.shiftr k 3 <= B.
Proof.
  intros H. rewrite Z.shiftr_div_pow2 by lia. change (2 ^ 3) with 8.
  split.
  - apply Z.div_le_lower_bound; lia.
  - apply Z.lt_succ_r. apply Z.div_lt_upper_bound; lia.
Qed.

Lemma int_part_in_weaken (A B A' B' : Z) (x : double) :
  A' <= A -> B <= B' -> int_part_in A B x -> int_part_in A' B' x.
Proof.
  intros HA HB. destruct x as [s | s | | [|] m e]; cbn [int_part_in];
    try tauto; try lia.
  intros [He H]. split; [exact He |].
  assert (0 < 2 ^ (- e)) by (apply Z.pow_pos_nonneg; lia). nia.
Qed.

Lemma zone_letter_of_int_part (latitude : double) (A B : Z) :
  between #(-80) #84 latitude = true ->
  0 <= A -> B <= 20 ->
  int_part_in (8 * A) (8 * B + 7) (latitude + #80)%dbl ->
  exists k l,
    A <= k <= B
    /\ getitem ZONE_LETTERS k = Ok l
    /\ latitude_to_zone_letter latitude = Ok (Some l).
Proof.
  intros Hb HA HB Hs. unfold between in Hb.
  destruct (int_part_in_to_int _ _ _ Hs) as (k & Hk & Hr).
  apply shiftr_3_bounds in Hr.
  destruct (getitem_in_range ZONE_LETTERS (Z.shiftr k 3)) as (c & _ & Hg).
  { change (Z.of_nat (String.length ZONE_LETTERS)) with 21. lia. }
  exists (Z.shiftr k 3), (String c EmptyString).
  split; [exact Hr |]. split; [exact Hg |].
  unfold latitude_to_zone_letter. rewrite Hb, Hk. cbn [bind].
  rewrite Hg. reflexivity.
Qed.

(** X10.  For every double [longitude] of [-180, 180] and every latitude
    (not-a-number included), [latlon_to_zone_number] raises nothing and
    returns a zone number of [1, 61]; up to longitude 176 the zone number
    is in [1, 60], the range [to_latlon] accepts. *)
Theorem latlon_to_zone_number_range (latitude longitude : double) :
  is_double longitude ->
  between #(-180) #180 longitude = true ->
  exists z,
    latlon_to_zone_number latitude longitude = Ok z
    /\ 1 <= z <= 61
    /\ ((longitude <=? #176)%dbl = true -> valid_zone_number z = true).
Proof. exact (latlon_to_zone_number_in_range latitude longitude). Qed.

(** X11.  The hemisphere of the letter: for a double latitude of
    [0, 84] the letter is one of N..X, for a latitude of [-80, -1] it is
    one of C..M; so the hemisphere that [to_latlon] reads off the letter
    (['N' <= letter]) is the one [from_latlon] used for the false
    northing ([latitude < 0]). *)
Theorem zone_letter_hemisphere (latitude : double) :
  is_double latitude ->
  between #(-80) #84 latitude = true ->
  (#0 <=? latitude)%dbl = true \/ (latitude <=? #(-1))%dbl = true ->
  exists l,
    latitude_to_zone_letter latitude = Ok (Some l)
    /\ In l band_letters
    /\ String.leb "N" (upper l) = negb (latitude <? #0)%dbl.
Proof.
  intros Hv Hb Hh. pose proof Hb as Hb'. unfold between in Hb'.
  apply andb_prop in Hb'. destruct Hb' as [H80 H84].
  destruct Hh as [H0 | H1].
  - pose proof (add_80_north latitude Hv H0 H84) as Hs.
    apply (int_part_in_weaken _ _ (8 * 10) (8 * 20 + 7)) in Hs; [| lia | lia].
    destruct (zone_letter_of_int_part latitude 10 20 Hb) as (k & l & Hk & Hg & Hl);
      [lia | lia | exact Hs |].
    exists l. split; [exact Hl |].
    apply getitem_ZONE_LETTERS in Hg. destruct Hg as (Hin & _ & Hn).
    split; [exact Hin |]. rewrite (leb_0_ltb_0 _ H0). now apply Hn.
  - pose proof (add_80_south latitude Hv H80 H1) as Hs.
    destruct (zone_letter_of_int_part latitude 0 9 Hb) as (k & l & Hk & Hg & Hl);
      [lia | lia | exact Hs |].
    exists l. split; [exact Hl |].
    apply getitem_ZONE_LETTERS in Hg. destruct Hg as (Hin & Hn & _).
    split; [exact Hin |]. rewrite (leb_neg1_ltb_0 _ H1). now apply Hn.
Qed.

(** X12.  Whatever the latitude, a letter that [latitude_to_zone_letter]
    returns is one of the twenty band letters, in upper case, and passes
    the letter check of [to_latlon]. *)
Theorem zone_letter_accepted (latitude : double) (l : string) :
  latitude_to_zone_letter latitude = Ok (Some l) ->
  In l band_letters
  /\ truthy (Some l) = true
  /\ valid_letter_argument (Some l) = true.
Proof.
  intros H. apply latitude_to_zone_letter_band_letter in H.
  split; [exact H |]. apply band_letters_valid in H. tauto.
Qed.

End LetterHemisphere.

Section Composition.

Context {libm : Libm} {unicode : Unicode}.

Local Open Scope py_scope.

Lemma from_latlon_series_Ok_inv latitude longitude z p :
  from_latlon_series latitude longitude z = Ok p -> c_int_range z.
Proof.
  unfold from_latlon_series. intros H.
  apply bind_Ok_inv in H. destruct H as (c & Hc & _).
  unfold zone_number_to_central_longitude in Hc.
  apply bind_Ok_inv in Hc. destruct Hc as (z' & Hz & _).
  unfold to_c_int in Hz.
  destruct (Z.leb_spec (- 2 ^ 31) z) as [L | L];
    destruct (Z.ltb_spec z (2 ^ 31)) as [U | U];
    cbn [andb] in Hz; try discriminate Hz.
  split; assumption.
Qed.

Lemma from_latlon_Ok_inv latitude longitude force_zone_number strict
    easting northing z l :
  from_latlon latitude longitude force_zone_number strict
  = Ok (easting, northing, z, l) ->
  latitude_to_zone_letter latitude = Ok l
  /\ from_latlon_series latitude longitude z = Ok (easting, northing).
Proof.
  unfold from_latlon. intros H.
  apply bind_Ok_inv in H. destruct H as (u & _ & H).
  apply bind_Ok_inv in H. destruct H as (z' & Hz & H).
  apply bind_Ok_inv in H. destruct H as (l' & Hl & H).
  apply bind_Ok_inv in H. destruct H as ([e n] & Hs & H).
  cbn [fst snd] in H. injection H as <- <- <- <-. auto.
Qed.

(** X13.  On the strict domain [from_latlon] is total: for all doubles
    with latitude in [-80, 84] and longitude in [-180, 180] it raises
    nothing and returns a zone number of [1, 61] and one of the twenty
    band letters, for every libm whose squared sine is in [0, 1] at the
    latitude. *)
Theorem from_latlon_strict_total latitude longitude :
  is_double latitude -> is_double longitude ->
  between #(-80) #84 latitude = true ->
  between #(-180) #180 longitude = true ->
  sine_squared_in_unit latitude ->
  exists easting northing z l,
    from_latlon latitude longitude None true
    = Ok (easting, northing, z, Some l)
    /\ 1 <= z <= 61 /\ In l band_letters.
Proof.
  intros Hvlat Hvlon Hlat Hlon Hd.
  destruct (latlon_to_zone_number_in_range latitude longitude Hvlon Hlon)
    as (z & Hz & Hr & _).
  destruct (latitude_to_zone_letter_in_band latitude Hvlat Hlat)
    as (i & c & _ & _ & _ & Hl).
  destruct (from_latlon_series_Ok latitude longitude z) as (easting & northing & Hs);
    [unfold c_int_range; lia | exact Hd |].
  exists easting, northing, z, (String c EmptyString).
  split; [| split; [exact Hr |]].
  - rewrite from_latlon_strict_in_range by assumption.
    unfold from_latlon. cbn [bind]. rewrite Hz. cbn [bind].
    rewrite Hl. cbn [bind]. rewrite Hs. reflexivity.
  - exact (latitude_to_zone_letter_band_letter _ _ Hl).
Qed.

(** X14.  [to_latlon] on what [from_latlon] returns.  When the zone
    number of the returned tuple is in [1, 60], [to_latlon] without
    [strict] passes all its argument checks, reads the hemisphere off
    the letter and runs the series, and the only exception the call can
    raise is [ZeroDivisionError]; when it is not (zone 61 at the eastern
    end of the longitude range, or a forced zone number),
    [to_latlon] raises [OutOfRangeError], with or without [strict]. *)
Theorem to_latlon_of_from_latlon latitude longitude force_zone_number
    strict easting northing z l :
  from_latlon latitude longitude force_zone_number strict
  = Ok (easting, northing, z, Some l) ->
  (valid_zone_number z = true ->
   to_latlon easting northing z (Some l) None false
   = to_latlon_series easting northing z (String.leb "N" l)
   /\ forall e, to_latlon easting northing z (Some l) None false = Raise e ->
                e = ZeroDivisionError)
  /\ (valid_zone_number z = false ->
      forall strict',
        to_latlon easting northing z (Some l) None strict'
        = Raise OutOfRangeError).
Proof.
  intros H. apply from_latlon_Ok_inv in H. destruct H as [Hl Hi].
  apply from_latlon_series_Ok_inv in Hi.
  apply latitude_to_zone_letter_band_letter in Hl.
  apply band_letters_valid in Hl. destruct Hl as (Ht & Hv & Hu).
  assert (Hc : valid_combination (Some l) None = true)
    by (unfold valid_combination; rewrite Ht; reflexivity).
  split; intros Hz.
  - assert (E : to_latlon easting northing z (Some l) None false
                = to_latlon_series easting northing z (String.leb "N" l)).
    { rewrite to_latlon_c_int by exact Hi.
      rewrite to_latlon_checks_valid by exact Hc.
      destruct l as [| a s]; [discriminate Ht |].
      cbn [valid_letter_argument] in Hv.
      rewrite Hz, Hv, Hu. reflexivity. }
    split; [exact E |].
    intros e He. rewrite E in He.
    apply to_latlon_series_Raise_inv in He.
    destruct He as [He | [_ He]]; [exact He |].
    exfalso. apply He. unfold valid_zone_number in Hz.
    apply andb_prop in Hz. destruct Hz as [Hz1 Hz2].
    apply Z.leb_le in Hz1. apply Z.leb_le in Hz2. lia.
  - intros strict'. rewrite to_latlon_c_int by exact Hi.
    rewrite to_latlon_checks_valid by exact Hc. rewrite Hz.
    destruct strict', (between_excl #100000 #1000000 easting),
             (between #0 #10000000 northing); reflexivity.
Qed.

End Composition.

Section MoreExamples.

Local Open Scope dbl_scope.

Local Existing Instance RefUnicode.unicode.

Lemma latlon_to_zone_number_range_witness :
  is_double (of_Z 10)
  /\ between (of_Z (-180)) (of_Z 180) (of_Z 10) = true
  /\ exists z,
       latlon_to_zone_number (of_Z 60) (of_Z 10) = Ok z
       /\ 1 <= z <= 61
       /\ ((of_Z 10 <=? of_Z 176)%dbl = true -> valid_zone_number z = true).
Proof.
  split; [reflexivity |]. split; [reflexivity |].
  apply (latlon_to_zone_number_range (of_Z 60) (of_Z 10)); reflexivity.
Defined.

Lemma zone_letter_hemisphere_witness :
  is_double (of_Z (-33))
  /\ between (of_Z (-80)) (of_Z 84) (of_Z (-33)) = true
  /\ exists l,
       latitude_to_zone_letter (of_Z (-33)) = Ok (Some l)
       /\ In l band_letters
       /\ String.leb "N" (upper l) = negb (of_Z (-33) <? of_Z 0)%dbl.
Proof.
  split; [reflexivity |]. split; [reflexivity |].
  apply (zone_letter_hemisphere (of_Z (-33))); [reflexivity | reflexivity |].
  right. reflexivity.
Defined.

Lemma zone_letter_accepted_witness :
  latitude_to_zone_letter (of_Z 84) = Ok (Some "X"%string)
  /\ In "X"%string band_letters
  /\ truthy (Some "X"%string) = true
  /\ valid_letter_argument (Some "X"%string) = true.
Proof.
  split; [reflexivity |].
  apply (zone_letter_accepted (of_Z 84) "X"%string). reflexivity.
Defined.

Lemma central_meridian_example :
  from_latlon (libm := RefLibm.libm) #0 #3 None true
  = Ok (#500000, #0, 31%Z, Some "N"%string).
Proof. vm_compute. reflexivity. Qed.

Lemma from_latlon_strict_total_witness :
  is_double #50 /\ is_double #9
  /\ between #(-80) #84 #50 = true
  /\ between #(-180) #180 #9 = true
  /\ sine_squared_in_unit (libm := RefLibm.libm) #50
  /\ exists easting northing z l,
       from_latlon (libm := RefLibm.libm) #50 #9 None true
       = Ok (easting, northing, z, Some l)
       /\ (1 <= z <= 61)%Z /\ In l band_letters.
Proof.
  assert (H : sine_squared_in_unit (libm := RefLibm.libm) #50)
    by (vm_compute; split; reflexivity).
  repeat (split; [first [reflexivity | exact H] |]).
  exact (from_latlon_strict_total (libm := RefLibm.libm) #50 #9
           eq_refl eq_refl eq_refl eq_refl H).
Defined.

Lemma eastern_end_example :
  from_latlon (libm := RefLibm.libm) #0 #180 None true
  = Ok (S754_finite false 5704453347833776 (-35), #0, 61%Z, Some "N"%string).
Proof. vm_compute. reflexivity. Qed.

Lemma to_latlon_of_from_latlon_witness :
  from_latlon (libm := RefLibm.libm) #0 #3 None true
  = Ok (#500000, #0, 31%Z, Some "N"%string)
  /\ valid_zone_number 31 = true
  /\ (to_latlon (libm := RefLibm.libm) #500000 #0 31 (Some "N"%string)
        None false
      = to_latlon_series (libm := RefLibm.libm) #500000 #0 31
          (String.leb "N" "N")
      /\ forall e,
           to_latlon (libm := RefLibm.libm) #500000 #0 31 (Some "N"%string)
             None false = Raise e ->
           e = ZeroDivisionError)
  /\ from_latlon (libm := RefLibm.libm) #0 #180 None true
     = Ok (S754_finite false 5704453347833776 (-35), #0, 61%Z,
           Some "N"%string)
  /\ valid_zone_number 61 = false
  /\ forall strict',
       to_latlon (libm := RefLibm.libm)
         (S754_finite false 5704453347833776 (-35)) #0 61 (Some "N"%string)
         None strict'
       = Raise OutOfRangeError.
Proof.
  split; [exact central_meridian_example |]. split; [reflexivity |].
  split.
  - exact (proj1 (to_latlon_of_from_latlon (libm := RefLibm.libm)
                    #0 #3 None true #500000 #0 31%Z "N"%string
                    central_meridian_example) eq_refl).
  - split; [exact eastern_end_example |]. split; [reflexivity |].
    exact (proj2 (to_latlon_of_from_latlon (libm := RefLibm.libm)
                    #0 #180 None true
                    (S754_finite false 5704453347833776 (-35)) #0 61%Z
                    "N"%string eastern_end_example) eq_refl).
Defined.

Lemma from_latlon_out_of_range_iff_witness :
  from_latlon (libm := RefLibm.libm) #85 #0 None true = Raise OutOfRangeError.
Proof.
  exact (proj2 (from_latlon_out_of_range_iff (libm := RefLibm.libm)
                  #85 #0 None true)
               (conj eq_refl (or_introl eq_refl))).
Defined.

Lemma to_latlon_errors_witness :
  c_int_range 61
  /\ to_latlon (libm := RefLibm.libm) #500000 #0 61 (Some "N"%string) None
       false
     = Raise OutOfRangeError.
Proof.
  assert (H : c_int_range 61) by (unfold c_int_range; simpl; lia).
  split; [exact H |].
  exact (proj2 (proj1 (proj2 (to_latlon_errors (libm := RefLibm.libm)
                                #500000 #0 61 (Some "N"%string) None false)))
               (conj H (conj eq_refl (or_introl eq_refl)))).
Defined.

Lemma to_latlon_letter_case_witness :
  ascii_only "u" = true
  /\ to_latlon (libm := RefLibm.libm) #294409 #5628898 32 (Some "u"%string)
       None true
     = to_latlon (libm := RefLibm.libm) #294409 #5628898 32
         (Some (upper "u")) None true.
Proof.
  split; [reflexivity |].
  exact (to_latlon_letter_case (libm := RefLibm.libm)
           #294409 #5628898 32%Z "u"%string None true eq_refl).
Defined.

(** Outside ASCII the uppercase form is the database's: with the
    stand-in, the sharp s becomes [SS] and passes the letter check. *)
Lemma sharp_s_accepted :
  upper RefUnicode.sharp_s = "SS"%string
  /\ valid_letter_argument (Some RefUnicode.sharp_s) = true.
Proof. split; reflexivity. Qed.

Lemma from_latlon_force_own_zone_witness :
  from_latlon (libm := RefLibm.libm) #0 #3 None true
  = Ok (#500000, #0, 31%Z, Some "N"%string)
  /\ latlon_to_zone_number #0 #3 = Ok 31%Z
  /\ latitude_to_zone_letter #0 = Ok (Some "N"%string)
  /\ from_latlon (libm := RefLibm.libm) #0 #3 (Some 31%Z) true
     = Ok (#500000, #0, 31%Z, Some "N"%string).
Proof.
  split; [exact central_meridian_example |].
  exact (from_latlon_force_own_zone (libm := RefLibm.libm)
           #0 #3 true #500000 #0 31%Z (Some "N"%string)
           central_meridian_example).
Defined.

Lemma from_latlon_longitude_not_finite_witness :
  not_finite S754_nan = true
  /\ from_latlon (libm := RefLibm.libm) #0 S754_nan None false
     = Raise ValueError.
Proof.
  split; [reflexivity |].
  exact (from_latlon_longitude_not_finite (libm := RefLibm.libm)
           #0 S754_nan false eq_refl).
Defined.


End MoreExamples.
